(** * Aisha backend: messaging gateway client, phone normalizer and request handlers

    A shallow embedding of [service/whatsapp_service.py] and [main.py].

    - Python [str] values are sequences of Unicode code points ([pystr]).
    - JSON-like Python values (dicts, lists, strings, numbers, [None]) are the
      inductive type [json].
    - Code that can raise runs in a small state-and-exception monad [M] whose
      state is the world the handlers act on: the relational store and the log
      of outbound HTTP calls. *)

From Stdlib Require Import List String Ascii NArith ZArith Bool Lia.
Import ListNotations.

Set Implicit Arguments.
Set Warnings "-register-all".

(** ** Python strings *)

Module PyStr.

(** A character is a Unicode code point. *)
Definition char := N.
Definition pystr := list char.

(** An ASCII literal of the source, as code points. *)
Definition lit (s : string) : pystr :=
  map N_of_ascii (list_ascii_of_string s).

Fixpoint eqb (a b : pystr) : bool :=
  match a, b with
  | [], [] => true
  | x :: a', y :: b' => N.eqb x y && eqb a' b'
  | _, _ => false
  end.

(** [s.startswith(prefix)] *)
Fixpoint startswith (s prefix : pystr) {struct prefix} : bool :=
  match prefix, s with
  | [], _ => true
  | p :: prefix', c :: s' => N.eqb c p && startswith s' prefix'
  | _ :: _, [] => false
  end.

(** [sub in s] *)
Fixpoint contains (s sub : pystr) : bool :=
  startswith s sub ||
  match s with
  | [] => false
  | _ :: s' => contains s' sub
  end.

(** The Unicode character database of the running interpreter, above
    Latin-1.  Which code points beyond U+00FF are digits, decimal digits
    (category Nd) or whitespace depends on the Unicode version the
    interpreter ships. *)
Record Unicode := {
  uni_isdigit : char -> bool;
  uni_isdecimal : char -> bool;
  uni_isspace : char -> bool
}.

Section Classes.
Variable ucd : Unicode.

(** [c.isdigit()]: Numeric_Type Digit or Decimal.  In Latin-1 these are
    the ten ASCII digits and the superscripts U+00B2, U+00B3, U+00B9. *)
Definition isdigit (c : char) : bool :=
  if (c <? 256)%N
  then ((48 <=? c) && (c <=? 57) || (c =? 178) || (c =? 179) || (c =? 185))%N
  else uni_isdigit ucd c.

(** [c.isdecimal()]: Numeric_Type Decimal.  In Latin-1 these are the ten
    ASCII digits and nothing else. *)
Definition isdecimal (c : char) : bool :=
  if (c <? 256)%N
  then ((48 <=? c) && (c <=? 57))%N
  else uni_isdecimal ucd c.

(** Whitespace as [str.strip()] sees it.  In Latin-1: TAB..CR, FS..US,
    SPACE, NEL (U+0085) and NBSP (U+00A0). *)
Definition isspace (c : char) : bool :=
  if (c <? 256)%N
  then ((9 <=? c) && (c <=? 13) || (28 <=? c) && (c <=? 32)
        || (c =? 133) || (c =? 160))%N
  else uni_isspace ucd c.

Fixpoint lstrip (s : pystr) : pystr :=
  match s with
  | [] => []
  | c :: s' => if isspace c then lstrip s' else s
  end.

Definition rstrip (s : pystr) : pystr := rev (lstrip (rev s)).

(** [s.strip()] *)
Definition strip (s : pystr) : pystr := rstrip (lstrip s).

End Classes.

(** A database that knows nothing beyond Latin-1. *)
Definition latin1_only : Unicode :=
  {| uni_isdigit := fun _ => false;
     uni_isdecimal := fun _ => false;
     uni_isspace := fun _ => false |}.

(** A database with a few entries beyond Latin-1: the Arabic-Indic digits
    U+0660..U+0669 and the spaces U+2000..U+200A and U+3000. *)
Definition sample_ucd : Unicode :=
  {| uni_isdigit := fun c => ((1632 <=? c) && (c <=? 1641))%N;
     uni_isdecimal := fun c => ((1632 <=? c) && (c <=? 1641))%N;
     uni_isspace := fun c => ((8192 <=? c) && (c <=? 8202) || (c =? 12288))%N |}.

End PyStr.

Import PyStr.

(** ** The phone normaliser, [WhatsAppService._normalize_phone] *)

Module Normalizer.

Section Normalize.
Variable ucd : Unicode.

Definition plus_sign : char := 43%N.

(** The characters the filter keeps. *)
Definition kept (c : char) : bool := isdigit ucd c || N.eqb c plus_sign.

Definition _normalize_phone (phone_number : pystr) : pystr :=
  let phone_number := strip ucd phone_number in
  let phone_number :=
    filter (fun c => isdigit ucd c || N.eqb c plus_sign) phone_number in
  if startswith phone_number (lit "0") then
    lit "+254" ++ tl phone_number
  else if startswith phone_number (lit "254") then
    lit "+" ++ phone_number
  else if negb (startswith phone_number (lit "+")) then
    lit "+" ++ phone_number
  else phone_number.

(** *** The algorithm as the specification words it *)

(** Drop trailing whitespace, read from the right end. *)
Definition trim_right (s : pystr) : pystr :=
  fold_right
    (fun c acc =>
       match acc with
       | [] => if isspace ucd c then [] else [c]
       | _ :: _ => c :: acc
       end) [] s.

Fixpoint trim_left (s : pystr) : pystr :=
  match s with
  | c :: s' => if isspace ucd c then trim_left s' else s
  | [] => []
  end.

Fixpoint remove_unless (keep : char -> bool) (s : pystr) : pystr :=
  match s with
  | [] => []
  | c :: s' =>
      if keep c then c :: remove_unless keep s' else remove_unless keep s'
  end.

(** Step 3 of the algorithm, by the shape of the remaining string. *)
Definition add_prefix (s : pystr) : pystr :=
  match s with
  | 48%N :: rest => [43; 50; 53; 52]%N ++ rest
  | 50%N :: 53%N :: 52%N :: _ => 43%N :: s
  | 43%N :: _ => s
  | _ => 43%N :: s
  end.

(** The three steps with "decimal digit" taken literally. *)
Definition normalize_as_stated (s : pystr) : pystr :=
  add_prefix
    (remove_unless (fun c => isdecimal ucd c || N.eqb c 43)
       (trim_right (trim_left s))).

(** The three steps with "digit" as [str.isdigit] classifies. *)
Definition normalize_steps (s : pystr) : pystr :=
  add_prefix
    (remove_unless (fun c => isdigit ucd c || N.eqb c 43)
       (trim_right (trim_left s))).

End Normalize.

End Normalizer.

Import Normalizer.

(** ** JSON-like Python values *)

Module Json.

Inductive json :=
| JNull
| JBool (b : bool)
| JInt (n : Z)
| JFloat (repr : pystr)
| JStr (s : pystr)
| JList (l : list json)
| JDict (d : list (pystr * json)).

(** Lookup in a dict kept as its items in insertion order, keys distinct. *)
Fixpoint dict_lookup (d : list (pystr * json)) (k : pystr) : option json :=
  match d with
  | [] => None
  | (k', v) :: d' => if PyStr.eqb k' k then Some v else dict_lookup d' k
  end.

Definition of_option_str (o : option pystr) : json :=
  match o with
  | Some s => JStr s
  | None => JNull
  end.

End Json.

Import Json.

(** ** Exceptions, the world and the monad *)

(** Instances of [Exception] that the modelled code meets.  [RuntimeFailure]
    stands for any other [Exception] instance, such as one raised inside the
    HTTP caller. *)
Inductive exn :=
| KeyError (key : json)
| IndexError
| TypeError
| AttributeError
| HTTPException (status_code : Z) (detail : pystr)
| RuntimeFailure (descr : pystr).

(** Modelled from the spec: the result envelope of the HTTP caller, whose
    module [service/api_service.py] is outside this development:
    [{success: bool, data: optional structured value, error: optional
    string}].  [None] is an absent key. *)
Record Envelope := {
  success : bool;
  data : option json;
  error : option pystr
}.

(** The arguments of one [call_api] invocation. *)
Record ApiRequest := {
  url : pystr;
  method : pystr;
  headers : list (pystr * pystr);
  json_body : option json;
  timeout : option Z
}.

Module WaitingList.
Record t := {
  id : option Z;
  username : pystr;
  phone_number : pystr
}.
End WaitingList.

(** [sent_at], filled by the store's clock, is left out; [error_message] is
    never set by the handlers and stays NULL. *)
Module WhatsAppMessage.
Record t := {
  id : option Z;
  phone_number : pystr;
  message_content : pystr;
  message_type : pystr;
  status : pystr;
  external_message_id : json;
  error_message : option pystr
}.
End WhatsAppMessage.

Inductive row :=
| RowWaiting (r : WaitingList.t)
| RowMessage (r : WhatsAppMessage.t).

(** Modelled from the spec: the relational store behind the session that
    [database.py], outside this development, hands to each handler.  The two
    tables, and the objects added to the session and not yet committed. *)
Record Db := {
  waiting_list : list WaitingList.t;
  whatsapp_messages : list WhatsAppMessage.t;
  pending : list row
}.

Record World := {
  db : Db;
  calls : list ApiRequest
}.

Module Monad.

Definition M (A : Type) : Type := World -> (exn + A) * World.

Definition ret {A} (a : A) : M A := fun w => (inr a, w).

Definition bind {A B} (m : M A) (k : A -> M B) : M B :=
  fun w =>
    match m w with
    | (inr a, w') => k a w'
    | (inl e, w') => (inl e, w')
    end.

Definition raise {A} (e : exn) : M A := fun w => (inl e, w).

(** [try: body  except Exception as e: handler(e)] *)
Definition try_except {A} (body : M A) (handler : exn -> M A) : M A :=
  fun w =>
    match body w with
    | (inr a, w') => (inr a, w')
    | (inl e, w') => handler e w'
    end.

(** Lift a computation that may raise but touches no state. *)
Definition lift {A} (r : exn + A) : M A := fun w => (r, w).

Declare Scope monad_scope.
Delimit Scope monad_scope with monad.
Notation "x <- m ;; k" := (bind m (fun x => k))
  (at level 61, m at next level, right associativity) : monad_scope.
Notation "m ;; k" := (bind m (fun _ => k))
  (at level 61, right associativity) : monad_scope.

End Monad.

Import Monad.
Local Open Scope monad_scope.

(** ** Python operations on values *)

Module Py.

(** [v[key]] with a string key. *)
Definition getitem_str (v : json) (key : pystr) : exn + json :=
  match v with
  | JDict d =>
      match dict_lookup d key with
      | Some x => inr x
      | None => inl (KeyError (JStr key))
      end
  | _ => inl TypeError
  end.

(** [v[i]] with a non-negative integer index.  A dict decoded from JSON has
    string keys only, so an integer key is never found. *)
Definition getitem_int (v : json) (i : nat) : exn + json :=
  match v with
  | JList l =>
      match nth_error l i with
      | Some x => inr x
      | None => inl IndexError
      end
  | JStr s =>
      match nth_error s i with
      | Some c => inr (JStr [c])
      | None => inl IndexError
      end
  | JDict _ => inl (KeyError (JInt (Z.of_nat i)))
  | _ => inl TypeError
  end.

(** [v.get(key, default)]: only dicts have the method. *)
Definition get (v : json) (key : pystr) (default : json) : exn + json :=
  match v with
  | JDict d =>
      match dict_lookup d key with
      | Some x => inr x
      | None => inr default
      end
  | _ => inl AttributeError
  end.

(** Truth value of an optional string: [None] and [''] are false. *)
Definition truthy (o : option pystr) : bool :=
  match o with
  | None => false
  | Some [] => false
  | Some (_ :: _) => true
  end.

(** [f"{o}"] of an optional string. *)
Definition format (o : option pystr) : pystr :=
  match o with
  | Some s => s
  | None => lit "None"
  end.

Definition bind {A B} (r : exn + A) (k : A -> exn + B) : exn + B :=
  match r with
  | inr a => k a
  | inl e => inl e
  end.

End Py.

(** ** The environment of the service *)

(** Module-level configuration read from the process environment. *)
Record Config := {
  NGUMZO_API_KEY : option pystr;
  NGUMZO_API_URL : pystr;
  NGUMZO_SENDER_ID : option pystr;
  GEMINI_API_KEY : option pystr
}.

(** What lies outside the two modules, taken as parameters: the Unicode
    database, [str(e)] of an exception, and the HTTP caller [call_api] of
    [service/api_service.py], whose answer (an envelope, or an exception) may
    depend on the calls made before. *)
Record Runtime := {
  ucd : Unicode;
  str_exn : exn -> pystr;
  api : list ApiRequest -> ApiRequest -> exn + Envelope
}.

(** One invocation of [call_api]: the request is logged, the answer is the
    runtime's. *)
Definition call_api (rt : Runtime) (req : ApiRequest) : M Envelope :=
  fun w =>
    (api rt (calls w) req, {| db := db w; calls := calls w ++ [req] |}).

(** ** [service/whatsapp_service.py] *)

Module WhatsAppService.

Section Service.
Variable cfg : Config.
Variable rt : Runtime.

Definition _normalize_phone : pystr -> pystr :=
  Normalizer._normalize_phone (ucd rt).

Definition json_headers : list (pystr * pystr) :=
  [(lit "Content-Type", lit "application/json")].

Definition failure (msg : pystr) : Envelope :=
  {| success := false; data := None; error := Some msg |}.

Definition text_payload (phone_number message : pystr) : json :=
  JDict [ (lit "api_key", of_option_str (NGUMZO_API_KEY cfg));
          (lit "sender_id", of_option_str (NGUMZO_SENDER_ID cfg));
          (lit "to", JStr phone_number);
          (lit "message", JStr message);
          (lit "message_type", JStr (lit "text")) ].

(** The [except Exception as e] clause, the same in the three
    operations. *)
Definition on_exception (e : exn) : M Envelope :=
  ret (failure (lit "Exception: " ++ str_exn rt e)).

(** The [try] block of [send_message]. *)
Definition send_message_try
    (phone_number message message_type : pystr) : M Envelope :=
  let phone_number := _normalize_phone phone_number in
  if negb (Py.truthy (NGUMZO_API_KEY cfg)) then
    ret (failure
           (lit "NGUMZO_API_KEY not found in environment variables"))
  else
    let payload := text_payload phone_number message in
    let url := NGUMZO_API_URL cfg ++ lit "/send-message" in
    result <- call_api rt
                {| url := url; method := lit "POST";
                   headers := json_headers;
                   json_body := Some payload;
                   timeout := Some 30%Z |};;
    ret result.

Definition send_message
    (phone_number message message_type : pystr) : M Envelope :=
  try_except
    (send_message_try phone_number message message_type)
    on_exception.

(** [parameters or []] *)
Definition or_empty (parameters : option (list json)) : list json :=
  match parameters with
  | None => []
  | Some [] => []
  | Some (x :: l) => x :: l
  end.

Definition template_payload
    (phone_number template_name : pystr)
    (parameters : option (list json)) : json :=
  JDict [ (lit "api_key", of_option_str (NGUMZO_API_KEY cfg));
          (lit "sender_id", of_option_str (NGUMZO_SENDER_ID cfg));
          (lit "to", JStr phone_number);
          (lit "message_type", JStr (lit "template"));
          (lit "template_name", JStr template_name);
          (lit "parameters", JList (or_empty parameters)) ].

(** The [try] block of [send_template_message]. *)
Definition send_template_message_try
    (phone_number template_name : pystr)
    (parameters : option (list json)) : M Envelope :=
  let phone_number := _normalize_phone phone_number in
  let payload :=
    template_payload phone_number template_name parameters in
  let url := NGUMZO_API_URL cfg ++ lit "/send-message" in
  result <- call_api rt
              {| url := url; method := lit "POST";
                 headers := json_headers;
                 json_body := Some payload;
                 timeout := Some 30%Z |};;
  ret result.

Definition send_template_message
    (phone_number template_name : pystr)
    (parameters : option (list json)) : M Envelope :=
  try_except
    (send_template_message_try phone_number template_name parameters)
    on_exception.

Definition media_payload
    (phone_number media_url media_type : pystr)
    (caption : option pystr) : json :=
  JDict [ (lit "api_key", of_option_str (NGUMZO_API_KEY cfg));
          (lit "sender_id", of_option_str (NGUMZO_SENDER_ID cfg));
          (lit "to", JStr phone_number);
          (lit "message_type", JStr media_type);
          (lit "media_url", JStr media_url);
          (lit "caption", of_option_str caption) ].

(** The [try] block of [send_media_message]. *)
Definition send_media_message_try
    (phone_number media_url media_type : pystr)
    (caption : option pystr) : M Envelope :=
  let phone_number := _normalize_phone phone_number in
  let payload :=
    media_payload phone_number media_url media_type caption in
  let url := NGUMZO_API_URL cfg ++ lit "/send-message" in
  result <- call_api rt
              {| url := url; method := lit "POST";
                 headers := json_headers;
                 json_body := Some payload;
                 timeout := Some 30%Z |};;
  ret result.

Definition send_media_message
    (phone_number media_url media_type : pystr)
    (caption : option pystr) : M Envelope :=
  try_except
    (send_media_message_try phone_number media_url media_type caption)
    on_exception.

(** The request the three operations hand to [call_api]. *)
Definition gateway_request (payload : json) : ApiRequest :=
  {| url := NGUMZO_API_URL cfg ++ lit "/send-message";
     method := lit "POST";
     headers := json_headers;
     json_body := Some payload;
     timeout := Some 30%Z |}.

End Service.

End WhatsAppService.

(** ** The session on the relational store *)

Module Session.

(** Modelled from the spec: the session's operations on the store, as the
    handlers use them.  Writing one pending object to its table; the key is
    the next integer. *)
Definition flush_row (d : Db) (r : row) : Db :=
  match r with
  | RowWaiting x =>
      let x' := {| WaitingList.id :=
                     Some (Z.of_nat (S (List.length (waiting_list d))));
                   WaitingList.username := WaitingList.username x;
                   WaitingList.phone_number := WaitingList.phone_number x |} in
      {| waiting_list := waiting_list d ++ [x'];
         whatsapp_messages := whatsapp_messages d;
         pending := pending d |}
  | RowMessage x =>
      let x' := {| WhatsAppMessage.id :=
                     Some (Z.of_nat (S (List.length (whatsapp_messages d))));
                   WhatsAppMessage.phone_number := WhatsAppMessage.phone_number x;
                   WhatsAppMessage.message_content := WhatsAppMessage.message_content x;
                   WhatsAppMessage.message_type := WhatsAppMessage.message_type x;
                   WhatsAppMessage.status := WhatsAppMessage.status x;
                   WhatsAppMessage.external_message_id :=
                     WhatsAppMessage.external_message_id x;
                   WhatsAppMessage.error_message := WhatsAppMessage.error_message x |} in
      {| waiting_list := waiting_list d;
         whatsapp_messages := whatsapp_messages d ++ [x'];
         pending := pending d |}
  end.

Definition on_db (f : Db -> Db) : M unit :=
  fun w => (inr tt, {| db := f (db w); calls := calls w |}).

(** [db.add(obj)] *)
Definition add (r : row) : M unit :=
  on_db (fun d =>
    {| waiting_list := waiting_list d;
       whatsapp_messages := whatsapp_messages d;
       pending := pending d ++ [r] |}).

(** [db.commit()] *)
Definition commit : M unit :=
  on_db (fun d =>
    let d' := fold_left flush_row (pending d) d in
    {| waiting_list := waiting_list d';
       whatsapp_messages := whatsapp_messages d';
       pending := [] |}).

(** [db.query(WaitingList).filter(WaitingList.phone_number == p).first()] *)
Definition first_waiting_by_phone (p : pystr) : M (option WaitingList.t) :=
  fun w =>
    (inr (find (fun r => PyStr.eqb (WaitingList.phone_number r) p)
            (waiting_list (db w))), w).

(** [db.refresh(db_item)] for the waiting-list item just committed: its
    attributes are read back from the table's newest row. *)
Definition refresh_waiting (x : WaitingList.t) : M WaitingList.t :=
  fun w => (inr (last (waiting_list (db w)) x), w).

End Session.

(** ** [main.py] *)

Module Main.

Record WaitingListCreate := {
  wlc_username : pystr;
  wlc_phone_number : pystr
}.

Record WhatsAppTextMessage := {
  txt_phone_number : pystr;
  txt_message : pystr
}.

Record WhatsAppTemplateMessage := {
  tpl_phone_number : pystr;
  tpl_template_name : pystr;
  tpl_parameters : option (list json)
}.

Record WhatsAppMediaMessage := {
  med_phone_number : pystr;
  med_media_url : pystr;
  med_media_type : pystr;
  med_caption : option pystr
}.

Record GeminiRequest := {
  prompt : pystr
}.

Definition GEMINI_API_URL : pystr :=
  lit "https://generativelanguage.googleapis.com/v1beta/models/gemini-2.5-flash:generateContent".

Section Handlers.
Variable cfg : Config.
Variable rt : Runtime.

(** The welcome text; U+1F44B and U+1F680 are the two emoji. *)
Definition welcome (username : pystr) : pystr :=
  lit "Hello " ++ username ++ lit ", " ++ [128075; 10; 10]%N
  ++ lit "Thanks for joining our waiting list! We'll notify you soon when we launch. "
  ++ [128640]%N.

Definition json_of_id (i : option Z) : json :=
  match i with
  | Some n => JInt n
  | None => JNull
  end.

Definition create_waiting_list_item (item : WaitingListCreate) : M json :=
  try_except
    (existing <- Session.first_waiting_by_phone (wlc_phone_number item);;
     match existing with
     | Some _ =>
         raise (HTTPException 400
                  (lit "Phone number already in waiting list"))
     | None =>
         let db_item :=
           {| WaitingList.id := None;
              WaitingList.username := wlc_username item;
              WaitingList.phone_number := wlc_phone_number item |} in
         Session.add (RowWaiting db_item);;
         Session.commit;;
         db_item <- Session.refresh_waiting db_item;;
         let message := welcome (wlc_username item) in
         whatsapp_result <-
           WhatsAppService.send_message cfg rt
             (wlc_phone_number item) message (lit "text");;
         ret (JDict [ (lit "message", JStr (lit "Added to waiting list"));
                      (lit "id", json_of_id (WaitingList.id db_item));
                      (lit "whatsapp_sent",
                        JBool (success whatsapp_result)) ])
     end)
    (fun e => raise (HTTPException 422 (str_exn rt e))).

(** [result.get("data", {}).get("messages", [{}])[0].get("id")] *)
Definition external_id (result : Envelope) : exn + json :=
  let d := match data result with
           | Some v => v
           | None => JDict []
           end in
  Py.bind (Py.get d (lit "messages") (JList [JDict []])) (fun m =>
  Py.bind (Py.getitem_int m 0) (fun m0 =>
  Py.get m0 (lit "id") JNull)).

(** The [if result.get("success"): ...] block shared by the three send
    handlers. *)
Definition store_if_sent
    (result : Envelope) (phone content type : pystr) : M unit :=
  if success result then
    ext <- lift (external_id result);;
    let db_message :=
      {| WhatsAppMessage.id := None;
         WhatsAppMessage.phone_number := phone;
         WhatsAppMessage.message_content := content;
         WhatsAppMessage.message_type := type;
         WhatsAppMessage.status := lit "sent";
         WhatsAppMessage.external_message_id := ext;
         WhatsAppMessage.error_message := None |} in
    Session.add (RowMessage db_message);;
    Session.commit
  else ret tt.

Definition send_whatsapp_text (request : WhatsAppTextMessage) : M Envelope :=
  try_except
    (result <- WhatsAppService.send_message cfg rt
                 (txt_phone_number request) (txt_message request)
                 (lit "text");;
     store_if_sent result (txt_phone_number request)
       (txt_message request) (lit "text");;
     ret result)
    (fun e => raise (HTTPException 500 (str_exn rt e))).

Definition send_whatsapp_template
    (request : WhatsAppTemplateMessage) : M Envelope :=
  try_except
    (result <- WhatsAppService.send_template_message cfg rt
                 (tpl_phone_number request) (tpl_template_name request)
                 (tpl_parameters request);;
     store_if_sent result (tpl_phone_number request)
       (lit "Template: " ++ tpl_template_name request) (lit "template");;
     ret result)
    (fun e => raise (HTTPException 500 (str_exn rt e))).

Definition send_whatsapp_media
    (request : WhatsAppMediaMessage) : M Envelope :=
  try_except
    (result <- WhatsAppService.send_media_message cfg rt
                 (med_phone_number request) (med_media_url request)
                 (med_media_type request) (med_caption request);;
     store_if_sent result (med_phone_number request)
       (med_media_url request) (med_media_type request);;
     ret result)
    (fun e => raise (HTTPException 500 (str_exn rt e))).

Definition gemini_payload (prompt : pystr) : json :=
  JDict [ (lit "contents",
           JList [ JDict [ (lit "parts",
                            JList [ JDict [ (lit "text", JStr prompt) ] ]) ] ]) ].

(** [data["candidates"][0]["content"]["parts"][0]["text"]] *)
Definition extract_text (data : json) : exn + json :=
  Py.bind (Py.getitem_str data (lit "candidates")) (fun a =>
  Py.bind (Py.getitem_int a 0) (fun b =>
  Py.bind (Py.getitem_str b (lit "content")) (fun c =>
  Py.bind (Py.getitem_str c (lit "parts")) (fun d =>
  Py.bind (Py.getitem_int d 0) (fun e =>
  Py.getitem_str e (lit "text")))))).

Definition get_gemini_response (request : GeminiRequest) : M json :=
  let prompt := prompt request in
  let payload := gemini_payload prompt in
  result <- call_api rt
              {| url := GEMINI_API_URL ++ lit "?key="
                        ++ Py.format (GEMINI_API_KEY cfg);
                 method := lit "POST";
                 headers := WhatsAppService.json_headers;
                 json_body := Some payload;
                 timeout := None |};;
  if negb (success result) then
    raise (HTTPException 500
             (match error result with
              | Some e => e
              | None => lit "Unknown error"
              end))
  else
    data <- match data result with
            | Some d => ret d
            | None => raise (KeyError (JStr (lit "data")))
            end;;
    text <- lift (extract_text data);;
    ret (JDict [ (lit "response", text) ]).

End Handlers.

End Main.

(** ** Regular expressions, as [re.match] decides them *)

Module Re.

(** The fragment of pattern syntax the two validators use.  [Repeat a lo hi]
    is [a{lo,hi}]; [Dollar] is [$] outside multi-line mode. *)
Inductive regex :=
| Eps
| Lit (c : char)
| Class (f : char -> bool)
| Seq (a b : regex)
| Alt (a b : regex)
| Repeat (a : regex) (lo hi : nat)
| Dollar.

(** A literal string. *)
Fixpoint lits (s : pystr) : regex :=
  match s with
  | [] => Eps
  | c :: s' => Seq (Lit c) (lits s')
  end.

(** [n] repetitions of a step, then the continuation. *)
Fixpoint exactly (step : pystr -> (pystr -> bool) -> bool) (n : nat)
    (k : pystr -> bool) (s : pystr) : bool :=
  match n with
  | S n' => step s (exactly step n' k)
  | O => k s
  end.

(** At most [m] repetitions of a step, then the continuation. *)
Fixpoint upto (step : pystr -> (pystr -> bool) -> bool) (m : nat)
    (k : pystr -> bool) (s : pystr) : bool :=
  match m with
  | S m' => step s (upto step m' k) || k s
  | O => k s
  end.

(** Whether the pattern matches a prefix of [s] that the continuation accepts
    the rest of: the backtracking search, every alternative tried. *)
Fixpoint run (r : regex) (s : pystr) (k : pystr -> bool) {struct r} : bool :=
  match r with
  | Eps => k s
  | Lit c =>
      match s with
      | x :: s' => N.eqb x c && k s'
      | [] => false
      end
  | Class f =>
      match s with
      | x :: s' => f x && k s'
      | [] => false
      end
  | Seq a b => run a s (fun s' => run b s' k)
  | Alt a b => run a s k || run b s k
  | Repeat a lo hi => exactly (run a) lo (upto (run a) (hi - lo) k) s
  | Dollar =>
      match s with
      | [] => k s
      | [10%N] => k s
      | _ => false
      end
  end.

(** Truth of [re.match(pattern, s)]: a match anchored at the start. *)
Definition matches (pattern : regex) (s : pystr) : bool :=
  run pattern s (fun _ => true).

End Re.

(** ** The request models' validators, [WaitingListCreate] *)

Module Intake.

Record ValueError := { message : pystr }.

Section Validators.
Variable ucd : Unicode.

(** [^(?:254|\+254|0)\d{9}$]; [\d] is any Unicode decimal digit. *)
Definition phone_pattern : Re.regex :=
  Re.Seq
    (Re.Alt (Re.lits (lit "254"))
       (Re.Alt (Re.lits (lit "+254")) (Re.lits (lit "0"))))
    (Re.Seq (Re.Repeat (Re.Class (isdecimal ucd)) 9 9) Re.Dollar).

(** The class [[a-zA-Z\s-]]; [\s] is any Unicode whitespace. *)
Definition name_char (c : char) : bool :=
  ((97 <=? c) && (c <=? 122) || (65 <=? c) && (c <=? 90))%N
  || isspace ucd c || N.eqb c 45.

(** [^[a-zA-Z\s-]{2,50}$] *)
Definition username_pattern : Re.regex :=
  Re.Seq (Re.Repeat (Re.Class name_char) 2 50) Re.Dollar.

Definition validate_phone (v : pystr) : ValueError + pystr :=
  if negb (Re.matches phone_pattern v) then
    inl {| message :=
             lit "Invalid Kenyan phone number format: 0712345678 or +254712345678" |}
  else inr v.

Definition validate_username (v : pystr) : ValueError + pystr :=
  if negb (Re.matches username_pattern v) then
    inl {| message :=
             lit "Username must contain only letters, spaces, or hyphens (2-50 characters)" |}
  else inr v.

End Validators.

End Intake.

(** ** Vocabulary of the statements *)

(** The configuration with the gateway key taken away. *)
Definition without_key (cfg : Config) : Config :=
  {| NGUMZO_API_KEY := None;
     NGUMZO_API_URL := NGUMZO_API_URL cfg;
     NGUMZO_SENDER_ID := NGUMZO_SENDER_ID cfg;
     GEMINI_API_KEY := GEMINI_API_KEY cfg |}.

(** The world after one more outbound call. *)
Definition called (w : World) (req : ApiRequest) : World :=
  {| db := db w; calls := calls w ++ [req] |}.

(** What the shared [except] clause of the gateway client makes of an outcome
    of [call_api]. *)
Definition enveloped (rt : Runtime) (r : exn + Envelope) : exn + Envelope :=
  match r with
  | inr env => inr env
  | inl e => inr (WhatsAppService.failure (lit "Exception: " ++ str_exn rt e))
  end.

(** A field of a payload object. *)
Definition field (payload : json) (key : string) : option json :=
  match payload with
  | JDict d => dict_lookup d (lit key)
  | _ => None
  end.

(** The value under [candidates[0].content.parts[0].text], when the response
    has that shape: objects at the named steps, non-empty arrays at the
    indexed ones. *)
Definition text_at_path (data : json) : option json :=
  match data with
  | JDict top =>
      match dict_lookup top (lit "candidates") with
      | Some (JList (JDict candidate :: _)) =>
          match dict_lookup candidate (lit "content") with
          | Some (JDict content) =>
              match dict_lookup content (lit "parts") with
              | Some (JList (JDict part :: _)) =>
                  dict_lookup part (lit "text")
              | _ => None
              end
          | _ => None
          end
      | _ => None
      end
  | _ => None
  end.

(** The record a send handler stores for a delivered message. *)
Definition sent_record
    (d : Db) (phone content type : pystr) (ext : json) : WhatsAppMessage.t :=
  {| WhatsAppMessage.id :=
       Some (Z.of_nat (S (List.length (whatsapp_messages d))));
     WhatsAppMessage.phone_number := phone;
     WhatsAppMessage.message_content := content;
     WhatsAppMessage.message_type := type;
     WhatsAppMessage.status := lit "sent";
     WhatsAppMessage.external_message_id := ext;
     WhatsAppMessage.error_message := None |}.


(** An operation that, run on [w], returns an envelope and leaves the store
    alone. *)
Definition quiet (op : M Envelope) (w : World) : Prop :=
  exists env w', op w = (inr env, w') /\ db w' = db w.

(** An HTTP status of the 4xx class. *)
Definition is_client_error (status_code : Z) : bool :=
  ((400 <=? status_code) && (status_code <? 500))%Z.

(** ** Vocabulary of the further statements *)

(** Nothing, or one line feed. *)
Definition at_most_newline (tail : pystr) : Prop :=
  tail = [] \/ tail = [10%N].

(** One of the three prefixes, nine decimal digits, and at most a final line
    feed. *)
Definition phone_shape (ucd : Unicode) (v : pystr) : Prop :=
  exists prefix digits tail,
    v = prefix ++ digits ++ tail /\
    (prefix = lit "254" \/ prefix = lit "+254" \/ prefix = lit "0") /\
    List.length digits = 9 /\
    forallb (isdecimal ucd) digits = true /\
    at_most_newline tail.

(** Two to fifty characters of the class, and at most a final line feed. *)
Definition username_shape (ucd : Unicode) (v : pystr) : Prop :=
  exists name tail,
    v = name ++ tail /\
    2 <= List.length name <= 50 /\
    forallb (Intake.name_char ucd) name = true /\
    at_most_newline tail.

(** The id a success envelope reports, when its data has a shape the handlers'
    chain of [get]s and [[0]] goes through: no data, data without "messages",
    or "messages" a non-empty list that starts with an object. *)
Definition reported_id (result : Envelope) : option json :=
  match data result with
  | None => Some JNull
  | Some (JDict d) =>
      match dict_lookup d (lit "messages") with
      | None => Some JNull
      | Some (JList (JDict m :: _)) =>
          match dict_lookup m (lit "id") with
          | Some i => Some i
          | None => Some JNull
          end
      | Some _ => None
      end
  | Some _ => None
  end.

(** A request whose body names a destination that starts with '+' and holds
    digits and '+' only. *)
Definition canonical_destination (rt : Runtime) (req : ApiRequest) : Prop :=
  exists payload t,
    json_body req = Some payload /\
    field payload "to" = Some (JStr (43%N :: t)) /\
    Forall (fun c => kept (ucd rt) c = true) (43%N :: t).

(** The waiting-list row a creation stores. *)
Definition enrolled_row (d : Db) (item : Main.WaitingListCreate)
    : WaitingList.t :=
  {| WaitingList.id := Some (Z.of_nat (S (List.length (waiting_list d))));
     WaitingList.username := Main.wlc_username item;
     WaitingList.phone_number := Main.wlc_phone_number item |}.

(** The store after a creation on a fresh session. *)
Definition enrolled_db (d : Db) (item : Main.WaitingListCreate) : Db :=
  {| waiting_list := waiting_list d ++ [enrolled_row d item];
     whatsapp_messages := whatsapp_messages d;
     pending := [] |}.

(** *** A concrete setting *)

Module Demo.

Definition cfg : Config :=
  {| NGUMZO_API_KEY := Some (lit "k-123");
     NGUMZO_API_URL := lit "https://ngumzo.com/v1";
     NGUMZO_SENDER_ID := Some (lit "AISHA");
     GEMINI_API_KEY := Some (lit "g-456") |}.

Definition describe (e : exn) : pystr :=
  match e with
  | KeyError _ => lit "KeyError"
  | IndexError => lit "list index out of range"
  | TypeError => lit "TypeError"
  | AttributeError => lit "AttributeError"
  | HTTPException status_code detail => detail
  | RuntimeFailure descr => descr
  end.

(** A gateway that accepts every message and reports its id. *)
Definition accepted : Envelope :=
  {| success := true;
     data := Some (JDict [ (lit "messages",
                            JList [ JDict [ (lit "id", JStr (lit "m-1")) ] ]) ]);
     error := None |}.

(** A gateway that refuses every message. *)
Definition refused : Envelope :=
  {| success := false; data := None;
     error := Some (lit "HTTP 500: upstream failure") |}.

Definition rt_with (answer : exn + Envelope) : Runtime :=
  {| ucd := sample_ucd; str_exn := describe; api := fun _ _ => answer |}.

Definition rt : Runtime := rt_with (inr accepted).

Definition empty_db : Db :=
  {| waiting_list := []; whatsapp_messages := []; pending := [] |}.

Definition start : World := {| db := empty_db; calls := [] |}.

Definition amina : WaitingList.t :=
  {| WaitingList.id := Some 1%Z;
     WaitingList.username := lit "Amina";
     WaitingList.phone_number := lit "0712345678" |}.

(** A world whose waiting list already holds one phone number. *)
Definition enrolled : World :=
  {| db := {| waiting_list := [amina]; whatsapp_messages := [];
              pending := [] |};
     calls := [] |}.

Definition again : Main.WaitingListCreate :=
  {| Main.wlc_username := lit "Amina K";
     Main.wlc_phone_number := lit "0712345678" |}.

Definition hello : Main.WhatsAppTextMessage :=
  {| Main.txt_phone_number := lit "0712345678";
     Main.txt_message := lit "hello" |}.

(** A gateway whose transport times out. *)
Definition timed_out : exn := RuntimeFailure (lit "timed out").

Definition ask : Main.GeminiRequest := {| Main.prompt := lit "Jambo?" |}.

(** A generative answer of the expected shape, and one without candidates. *)
Definition answered : Envelope :=
  {| success := true;
     data :=
       Some (JDict [ (lit "candidates",
               JList [ JDict [ (lit "content",
                 JDict [ (lit "parts",
                   JList [ JDict [ (lit "text",
                     JStr (lit "Jambo!")) ] ]) ]) ] ]) ]);
     error := None |}.

Definition unanswered : Envelope :=
  {| success := true;
     data := Some (JDict [ (lit "candidates", JList []) ]);
     error := None |}.

End Demo.

(** The request the Gemini handler hands to [call_api]. *)
Definition gemini_request (cfg : Config) (request : Main.GeminiRequest)
    : ApiRequest :=
  {| url := Main.GEMINI_API_URL ++ lit "?key="
            ++ Py.format (GEMINI_API_KEY cfg);
     method := lit "POST";
     headers := [(lit "Content-Type", lit "application/json")];
     json_body := Some (Main.gemini_payload (Main.prompt request));
     timeout := None |}.

(** *** Further concrete cases *)

Module Cases.

(** A gateway that reports success with an empty list of messages. *)
Definition accepted_without_id : Envelope :=
  {| success := true;
     data := Some (JDict [ (lit "messages", JList []) ]);
     error := None |}.

Definition welcome_template : Main.WhatsAppTemplateMessage :=
  {| Main.tpl_phone_number := lit "0712345678";
     Main.tpl_template_name := lit "welcome";
     Main.tpl_parameters := None |}.

(** The number of [Demo.amina], written with the 254 prefix. *)
Definition amina_254 : Main.WaitingListCreate :=
  {| Main.wlc_username := lit "Amina";
     Main.wlc_phone_number := lit "254712345678" |}.

Definition newcomer : Main.WaitingListCreate :=
  {| Main.wlc_username := lit "Baraka";
     Main.wlc_phone_number := lit "0700000001" |}.

End Cases.

(** ** Exceptions outside [Exception]

    [except Exception] catches the instances of [Exception] and nothing else.
    An awaited call can also end in a [BaseException] that is no [Exception]:
    [asyncio.CancelledError], raised at the [await] when the task running the
    request is cancelled.  This second embedding of the gateway client and of
    waiting-list creation keeps the two apart. *)

Module Cancellable.

(** What a [raise] can carry here. *)
Inductive raised :=
| Exc (e : exn)
| CancelledError.

Definition M (A : Type) : Type := World -> (raised + A) * World.

Definition ret {A} (a : A) : M A := fun w => (inr a, w).

Definition bind {A B} (m : M A) (k : A -> M B) : M B :=
  fun w =>
    match m w with
    | (inr a, w') => k a w'
    | (inl r, w') => (inl r, w')
    end.

Definition raise {A} (r : raised) : M A := fun w => (inl r, w).

(** [try: body  except Exception as e: handler(e)]: an instance of
    [Exception] goes to the handler, anything else passes. *)
Definition try_except_Exception {A}
    (body : M A) (handler : exn -> M A) : M A :=
  fun w =>
    match body w with
    | (inr a, w') => (inr a, w')
    | (inl (Exc e), w') => handler e w'
    | (inl CancelledError, w') => (inl CancelledError, w')
    end.

(** A computation of the first embedding, which raises instances of
    [Exception] only. *)
Definition of_plain {A} (m : Monad.M A) : M A :=
  fun w =>
    match m w with
    | (inr a, w') => (inr a, w')
    | (inl e, w') => (inl (Exc e), w')
    end.

Declare Scope cancellable_scope.
Delimit Scope cancellable_scope with cancellable.
Notation "x <- m ;; k" := (bind m (fun x => k))
  (at level 61, m at next level, right associativity) : cancellable_scope.
Notation "m ;; k" := (bind m (fun _ => k))
  (at level 61, right associativity) : cancellable_scope.
Local Open Scope cancellable_scope.

(** The surroundings, with a [call_api] whose await can be cancelled. *)
Record Awaiting := {
  unicode : Unicode;
  str_of : exn -> pystr;
  awaited : list ApiRequest -> ApiRequest -> raised + Envelope
}.

(** The surroundings of the first embedding, seen from here: nothing is ever
    cancelled. *)
Definition never_cancelled (rt : Runtime) : Awaiting :=
  {| unicode := ucd rt;
     str_of := str_exn rt;
     awaited := fun history req =>
       match api rt history req with
       | inr env => inr env
       | inl e => inl (Exc e)
       end |}.

Section Service.
Variable cfg : Config.
Variable rt : Awaiting.

Definition call_api (req : ApiRequest) : M Envelope :=
  fun w =>
    (awaited rt (calls w) req, {| db := db w; calls := calls w ++ [req] |}).

Definition _normalize_phone : pystr -> pystr :=
  Normalizer._normalize_phone (unicode rt).

Definition on_exception (e : exn) : M Envelope :=
  ret (WhatsAppService.failure (lit "Exception: " ++ str_of rt e)).

Definition send_message_try
    (phone_number message message_type : pystr) : M Envelope :=
  let phone_number := _normalize_phone phone_number in
  if negb (Py.truthy (NGUMZO_API_KEY cfg)) then
    ret (WhatsAppService.failure
           (lit "NGUMZO_API_KEY not found in environment variables"))
  else
    let payload := WhatsAppService.text_payload cfg phone_number message in
    let url := NGUMZO_API_URL cfg ++ lit "/send-message" in
    result <- call_api
                {| url := url; method := lit "POST";
                   headers := WhatsAppService.json_headers;
                   json_body := Some payload;
                   timeout := Some 30%Z |};;
    ret result.

Definition send_message
    (phone_number message message_type : pystr) : M Envelope :=
  try_except_Exception
    (send_message_try phone_number message message_type)
    on_exception.

Definition send_template_message_try
    (phone_number template_name : pystr)
    (parameters : option (list json)) : M Envelope :=
  let phone_number := _normalize_phone phone_number in
  let payload :=
    WhatsAppService.template_payload cfg phone_number template_name
      parameters in
  let url := NGUMZO_API_URL cfg ++ lit "/send-message" in
  result <- call_api
              {| url := url; method := lit "POST";
                 headers := WhatsAppService.json_headers;
                 json_body := Some payload;
                 timeout := Some 30%Z |};;
  ret result.

Definition send_template_message
    (phone_number template_name : pystr)
    (parameters : option (list json)) : M Envelope :=
  try_except_Exception
    (send_template_message_try phone_number template_name parameters)
    on_exception.

Definition send_media_message_try
    (phone_number media_url media_type : pystr)
    (caption : option pystr) : M Envelope :=
  let phone_number := _normalize_phone phone_number in
  let payload :=
    WhatsAppService.media_payload cfg phone_number media_url media_type
      caption in
  let url := NGUMZO_API_URL cfg ++ lit "/send-message" in
  result <- call_api
              {| url := url; method := lit "POST";
                 headers := WhatsAppService.json_headers;
                 json_body := Some payload;
                 timeout := Some 30%Z |};;
  ret result.

Definition send_media_message
    (phone_number media_url media_type : pystr)
    (caption : option pystr) : M Envelope :=
  try_except_Exception
    (send_media_message_try phone_number media_url media_type caption)
    on_exception.

Definition create_waiting_list_item
    (item : Main.WaitingListCreate) : M json :=
  try_except_Exception
    (existing <- of_plain
                   (Session.first_waiting_by_phone
                      (Main.wlc_phone_number item));;
     match existing with
     | Some _ =>
         raise (Exc (HTTPException 400
                       (lit "Phone number already in waiting list")))
     | None =>
         let db_item :=
           {| WaitingList.id := None;
              WaitingList.username := Main.wlc_username item;
              WaitingList.phone_number := Main.wlc_phone_number item |} in
         of_plain (Session.add (RowWaiting db_item));;
         of_plain Session.commit;;
         db_item <- of_plain (Session.refresh_waiting db_item);;
         let message := Main.welcome (Main.wlc_username item) in
         whatsapp_result <-
           send_message (Main.wlc_phone_number item) message (lit "text");;
         ret (JDict [ (lit "message", JStr (lit "Added to waiting list"));
                      (lit "id", Main.json_of_id (WaitingList.id db_item));
                      (lit "whatsapp_sent",
                        JBool (success whatsapp_result)) ])
     end)
    (fun e => raise (Exc (HTTPException 422 (str_of rt e)))).

(** The request of the welcome message. *)
Definition welcome_request (item : Main.WaitingListCreate) : ApiRequest :=
  WhatsAppService.gateway_request cfg
    (WhatsAppService.text_payload cfg
       (_normalize_phone (Main.wlc_phone_number item))
       (Main.welcome (Main.wlc_username item))).

End Service.

(** Surroundings in which every await is cancelled. *)
Definition cancelling : Awaiting :=
  {| unicode := sample_ucd;
     str_of := Demo.describe;
     awaited := fun _ _ => inl CancelledError |}.

(** Surroundings in which the transport times out. *)
Definition timing_out : Awaiting :=
  {| unicode := sample_ucd;
     str_of := Demo.describe;
     awaited := fun _ _ => inl (Exc Demo.timed_out) |}.

(** What a gateway operation makes of an outcome of [call_api]: an envelope
    is passed on, an instance of [Exception] becomes a failure envelope, a
    cancellation stays one. *)
Definition settled (rt : Awaiting) (r : raised + Envelope)
    : raised + Envelope :=
  match r with
  | inr env => inr env
  | inl (Exc e) =>
      inr (WhatsAppService.failure (lit "Exception: " ++ str_of rt e))
  | inl CancelledError => inl CancelledError
  end.

(** That an operation, started on [w], returns an envelope. *)
Definition returns_envelope (op : M Envelope) (w : World) : Prop :=
  exists env w', op w = (inr env, w').

End Cancellable.

(** Case analysis on a code point down to its six low bits: enough to tell
    every ASCII character the normaliser tests for from any other. *)
Ltac split_char c :=
  let p := fresh "p" in
  destruct c as [|p]; [|do 6 (try destruct p as [p|p|])].

(** ** Properties of the normaliser *)

Section NormalizerFacts.
Variable ucd : Unicode.

Lemma trim_left_lstrip (s : pystr) : trim_left ucd s = lstrip ucd s.
Proof.
  induction s as [|c s IH]; simpl; [reflexivity|].
  now rewrite IH.
Qed.

Lemma trim_right_snoc_space (s : pystr) (c : char) :
  isspace ucd c = true -> trim_right ucd (s ++ [c]) = trim_right ucd s.
Proof.
  intros Hc. unfold trim_right.
  rewrite fold_right_app. simpl. now rewrite Hc.
Qed.

Lemma trim_right_snoc_keep (s : pystr) (c : char) :
  isspace ucd c = false -> trim_right ucd (s ++ [c]) = s ++ [c].
Proof.
  intros Hc. unfold trim_right.
  rewrite fold_right_app. simpl. rewrite Hc.
  induction s as [|d s IH]; simpl; [reflexivity|].
  rewrite IH. destruct (s ++ [c]) eqn:E; [|reflexivity].
  now destruct s.
Qed.

Lemma trim_right_rstrip (s : pystr) : trim_right ucd s = rstrip ucd s.
Proof.
  unfold rstrip.
  induction s as [|c s IH] using rev_ind; [reflexivity|].
  rewrite rev_app_distr. simpl.
  destruct (isspace ucd c) eqn:Hc.
  - now rewrite trim_right_snoc_space.
  - rewrite trim_right_snoc_keep by assumption.
    simpl. now rewrite rev_involutive.
Qed.

Lemma remove_unless_filter (keep : char -> bool) (s : pystr) :
  remove_unless keep s = filter keep s.
Proof.
  induction s as [|c s IH]; simpl; [reflexivity|].
  now rewrite IH.
Qed.

End NormalizerFacts.

Section PrefixRule.
Variable ucd : Unicode.

Lemma add_prefix_branches (s : pystr) :
  (if startswith s (lit "0") then lit "+254" ++ tl s
   else if startswith s (lit "254") then lit "+" ++ s
   else if negb (startswith s (lit "+")) then lit "+" ++ s
   else s) = add_prefix s.
Proof.
  destruct s as [|c r]; [reflexivity|].
  split_char c; try reflexivity;
    (destruct r as [|d r]; [reflexivity|]);
    split_char d; try reflexivity;
    (destruct r as [|e r]; [reflexivity|]);
    split_char e; reflexivity.
Qed.

Lemma normalize_phone_unfold (s : pystr) :
  _normalize_phone ucd s =
  add_prefix
    (filter (fun c => isdigit ucd c || N.eqb c 43) (strip ucd s)).
Proof.
  unfold _normalize_phone. apply add_prefix_branches.
Qed.

End PrefixRule.

(** C2 (as amended).  For every Unicode database and every input string, the
    normaliser computes exactly: strip leading and trailing whitespace; remove
    every character that [str.isdigit] does not classify as a digit and that
    is not '+'; then replace a leading '0' by '+254', else prepend '+' to a
    leading '254', else prepend '+' unless the string already starts with
    '+'.  In particular the input "  0712-345-678 " gives "+254712345678". *)
Theorem normalize_phone_steps :
  forall (ucd : Unicode),
    (forall s : pystr, _normalize_phone ucd s = normalize_steps ucd s) /\
    _normalize_phone ucd (lit "  0712-345-678 ") = lit "+254712345678".
Proof.
  intros ucd. split.
  - intros s. rewrite normalize_phone_unfold. unfold normalize_steps.
    rewrite remove_unless_filter, trim_right_rstrip, trim_left_lstrip.
    reflexivity.
  - reflexivity.
Qed.

(** C2 (as stated) fails.  Whatever the Unicode database, the normaliser does
    not agree on every input with the steps that keep only decimal digits and
    '+': on the one-character string U+00B2 (superscript two), a digit for
    [str.isdigit] but no decimal digit, the code answers "+" followed by that
    character, the stated steps answer "+". *)
Lemma normalize_phone_keeps_superscript_digit :
  ~ (exists ucd : Unicode,
       forall s : pystr, _normalize_phone ucd s = normalize_as_stated ucd s).
Proof.
  intros [ucd H]. specialize (H [178%N]).
  vm_compute in H. discriminate H.
Qed.

(** The normaliser on the three accepted formats, on the empty string and on
    a string with a superscript digit. *)
Example normalize_phone_samples :
  forall ucd : Unicode,
    _normalize_phone ucd (lit "0712345678") = lit "+254712345678" /\
    _normalize_phone ucd (lit "254712345678") = lit "+254712345678" /\
    _normalize_phone ucd (lit "+254712345678") = lit "+254712345678" /\
    _normalize_phone ucd (lit "") = lit "+" /\
    _normalize_phone ucd (lit "  --  ") = lit "+" /\
    _normalize_phone ucd [55; 178]%N = [43; 55; 178]%N.
Proof. intros ucd. repeat split. Qed.

(** ** Idempotence of the normaliser *)

Section Idempotence.
Variable ucd : Unicode.

(** No code point is both a digit and whitespace. *)
Hypothesis digit_not_space :
  forall c : char, uni_isdigit ucd c = true -> uni_isspace ucd c = false.

Lemma kept_not_space (c : char) :
  kept ucd c = true -> isspace ucd c = false.
Proof.
  unfold kept, isdigit, isspace.
  destruct (c <? 256)%N eqn:Hc.
  - intros Hk.
    assert (Hr : (48 <= c <= 57 \/ c = 178 \/ c = 179 \/ c = 185 \/ c = 43)%N).
    { revert Hk.
      rewrite !orb_true_iff, andb_true_iff, !N.leb_le, !N.eqb_eq.
      tauto. }
    rewrite !orb_false_iff, !andb_false_iff, !N.leb_gt, !N.eqb_neq.
    lia.
  - rewrite orb_true_iff, N.eqb_eq. intros [Hd | ->].
    + now apply digit_not_space.
    + discriminate Hc.
Qed.

Lemma lstrip_no_space (s : pystr) :
  Forall (fun c => isspace ucd c = false) s -> lstrip ucd s = s.
Proof.
  intros H. destruct H as [|c s Hc _]; simpl; [reflexivity|].
  now rewrite Hc.
Qed.

Lemma strip_no_space (s : pystr) :
  Forall (fun c => isspace ucd c = false) s -> strip ucd s = s.
Proof.
  intros H. unfold strip, rstrip.
  rewrite (lstrip_no_space H).
  rewrite lstrip_no_space by now apply Forall_rev.
  apply rev_involutive.
Qed.

Lemma filter_all (f : char -> bool) (s : pystr) :
  Forall (fun c => f c = true) s -> filter f s = s.
Proof.
  induction 1 as [|c s Hc _ IH]; simpl; [reflexivity|].
  now rewrite Hc, IH.
Qed.

Lemma filter_kept (f : char -> bool) (s : pystr) :
  Forall (fun c => f c = true) (filter f s).
Proof.
  apply Forall_forall. intros c Hin.
  now apply filter_In in Hin.
Qed.

(** A string of kept characters that starts with '+' is a fixed point. *)
Lemma normalize_phone_fixed (t : pystr) :
  Forall (fun c => kept ucd c = true) (43%N :: t) ->
  _normalize_phone ucd (43%N :: t) = 43%N :: t.
Proof.
  intros H. rewrite normalize_phone_unfold.
  rewrite strip_no_space.
  - change (fun c => isdigit ucd c || N.eqb c 43) with (kept ucd).
    now rewrite filter_all.
  - eapply Forall_impl; [|exact H]. apply kept_not_space.
Qed.

(** Every result starts with '+' and holds kept characters only. *)
Lemma normalize_phone_shape (x : pystr) :
  exists t : pystr,
    _normalize_phone ucd x = 43%N :: t /\
    Forall (fun c => kept ucd c = true) (43%N :: t).
Proof.
  rewrite normalize_phone_unfold.
  change (fun c => isdigit ucd c || N.eqb c 43) with (kept ucd).
  pose proof (filter_kept (kept ucd) (strip ucd x)) as H.
  destruct (filter (kept ucd) (strip ucd x)) as [|c r].
  - exists []. split; [reflexivity|]. now repeat constructor.
  - assert (H43 : kept ucd 43%N = true) by reflexivity.
    assert (H50 : kept ucd 50%N = true) by reflexivity.
    assert (H53 : kept ucd 53%N = true) by reflexivity.
    assert (H52 : kept ucd 52%N = true) by reflexivity.
    pose proof (Forall_inv_tail H) as Hr.
    destruct (N.eq_dec c 48) as [->|H48].
    { exists (50 :: 53 :: 52 :: r)%N. split; [reflexivity|].
      now repeat constructor. }
    destruct (N.eq_dec c 43) as [->|Hn43].
    { exists r. split; [reflexivity|]. exact H. }
    exists (c :: r). split; [|now constructor].
    clear H Hr.
    split_char c; try reflexivity; try congruence;
      (destruct r as [|d r]; [reflexivity|]);
      split_char d; try reflexivity;
      (destruct r as [|e r]; [reflexivity|]);
      split_char e; reflexivity.
Qed.

End Idempotence.

(** C7.  The phone normaliser is idempotent: for every input string [x],
    normalising the normalised string changes nothing.  (The Unicode database
    is any in which no code point is both a digit and whitespace.) *)
Theorem normalize_phone_idempotent :
  forall (ucd : Unicode)
         (digit_not_space :
            forall c : char,
              uni_isdigit ucd c = true -> uni_isspace ucd c = false)
         (x : pystr),
    _normalize_phone ucd (_normalize_phone ucd x) = _normalize_phone ucd x.
Proof.
  intros ucd Hd x.
  destruct (normalize_phone_shape ucd x) as [t [-> Ht]].
  now apply normalize_phone_fixed.
Qed.

Lemma sample_ucd_digit_not_space :
  forall c : char,
    uni_isdigit sample_ucd c = true -> uni_isspace sample_ucd c = false.
Proof.
  intros c. simpl.
  rewrite andb_true_iff, orb_false_iff, andb_false_iff,
    !N.leb_le, !N.leb_gt, N.eqb_neq.
  lia.
Qed.

(** The input here is " 0712", U+0663 (Arabic-Indic three), "45 678" and an
    em space U+2003. *)
Lemma normalize_phone_idempotent_witness :
  (forall c : char,
      uni_isdigit sample_ucd c = true -> uni_isspace sample_ucd c = false) /\
  _normalize_phone sample_ucd
    (_normalize_phone sample_ucd
       (lit " 0712" ++ [1635%N] ++ lit "45 678" ++ [8195%N])) =
  _normalize_phone sample_ucd
    (lit " 0712" ++ [1635%N] ++ lit "45 678" ++ [8195%N]).
Proof.
  split.
  - exact sample_ucd_digit_not_space.
  - apply (normalize_phone_idempotent sample_ucd sample_ucd_digit_not_space).
Defined.

(** ** The messaging gateway client *)

Section GatewayFacts.
Variable cfg : Config.
Variable rt : Runtime.

Lemma send_message_run (p m t : pystr) (w : World) :
  WhatsAppService.send_message cfg rt p m t w =
  if Py.truthy (NGUMZO_API_KEY cfg) then
    let req :=
      WhatsAppService.gateway_request cfg
        (WhatsAppService.text_payload cfg
           (WhatsAppService._normalize_phone rt p) m) in
    (enveloped rt (api rt (calls w) req), called w req)
  else
    (inr (WhatsAppService.failure
            (lit "NGUMZO_API_KEY not found in environment variables")), w).
Proof.
  unfold WhatsAppService.send_message, WhatsAppService.send_message_try,
    try_except.
  destruct (Py.truthy (NGUMZO_API_KEY cfg)); simpl; [|reflexivity].
  unfold bind, call_api, WhatsAppService.gateway_request, called.
  destruct (api rt (calls w) _); reflexivity.
Qed.

Lemma send_template_message_run
    (p t : pystr) (ps : option (list json)) (w : World) :
  WhatsAppService.send_template_message cfg rt p t ps w =
  let req :=
    WhatsAppService.gateway_request cfg
      (WhatsAppService.template_payload cfg
         (WhatsAppService._normalize_phone rt p) t ps) in
  (enveloped rt (api rt (calls w) req), called w req).
Proof.
  unfold WhatsAppService.send_template_message,
    WhatsAppService.send_template_message_try, try_except.
  unfold bind, call_api, WhatsAppService.gateway_request, called. simpl.
  destruct (api rt (calls w) _); reflexivity.
Qed.

Lemma send_media_message_run
    (p u mt : pystr) (c : option pystr) (w : World) :
  WhatsAppService.send_media_message cfg rt p u mt c w =
  let req :=
    WhatsAppService.gateway_request cfg
      (WhatsAppService.media_payload cfg
         (WhatsAppService._normalize_phone rt p) u mt c) in
  (enveloped rt (api rt (calls w) req), called w req).
Proof.
  unfold WhatsAppService.send_media_message,
    WhatsAppService.send_media_message_try, try_except.
  unfold bind, call_api, WhatsAppService.gateway_request, called. simpl.
  destruct (api rt (calls w) _); reflexivity.
Qed.

(** A [try] block under the shared [except] clause never raises, and an
    exception of the block comes back as a failure envelope. *)
Lemma guarded_never_raises (body : M Envelope) (w : World) :
  (exists env w',
      try_except body (WhatsAppService.on_exception rt) w = (inr env, w')) /\
  (forall e w',
      body w = (inl e, w') ->
      exists env,
        try_except body (WhatsAppService.on_exception rt) w = (inr env, w') /\
        success env = false /\
        error env = Some (lit "Exception: " ++ str_exn rt e)).
Proof.
  unfold try_except.
  destruct (body w) as [[e|env] w'] eqn:E; split.
  - now eexists _, _.
  - intros e' w'' [= <- <-]. eexists. now repeat split.
  - now eexists _, _.
  - intros e' w'' [=].
Qed.

End GatewayFacts.

(** C1.  Without a gateway key, [send_message] answers the failure envelope
    that names the key and makes no call; [send_template_message] and
    [send_media_message] have no such guard: each builds its payload with a
    null [api_key], invokes [call_api] once and answers with its outcome. *)
Theorem missing_key_guard_only_in_send_message :
  forall (cfg : Config) (rt : Runtime) (w : World) (p : pystr),
    let cfg0 := without_key cfg in
    let phone := WhatsAppService._normalize_phone rt p in
    (forall m t,
        WhatsAppService.send_message cfg0 rt p m t w =
        (inr {| success := false; data := None;
                error := Some (lit "NGUMZO_API_KEY not found in environment variables") |},
         w)) /\
    contains (lit "NGUMZO_API_KEY not found in environment variables")
      (lit "NGUMZO_API_KEY") = true /\
    (forall t ps,
        let req :=
          WhatsAppService.gateway_request cfg0
            (WhatsAppService.template_payload cfg0 phone t ps) in
        WhatsAppService.send_template_message cfg0 rt p t ps w =
        (enveloped rt (api rt (calls w) req), called w req) /\
        option_map (fun b => field b "api_key") (json_body req) =
        Some (Some JNull)) /\
    (forall u mt c,
        let req :=
          WhatsAppService.gateway_request cfg0
            (WhatsAppService.media_payload cfg0 phone u mt c) in
        WhatsAppService.send_media_message cfg0 rt p u mt c w =
        (enveloped rt (api rt (calls w) req), called w req) /\
        option_map (fun b => field b "api_key") (json_body req) =
        Some (Some JNull)).
Proof.
  intros cfg rt w p cfg0 phone.
  split; [|split; [|split]].
  - intros m t. now rewrite send_message_run.
  - reflexivity.
  - intros t ps req. split; [apply send_template_message_run | reflexivity].
  - intros u mt c req. split; [apply send_media_message_run | reflexivity].
Qed.

(** In this first embedding, where everything raised is an instance of
    [Exception]: each of the three gateway operations returns an envelope from
    every input and world, and whenever its [try] block raises the operation
    returns a failure envelope, [success] false, whose [error] is
    "Exception: " followed by the exception's text. *)
Theorem gateway_operations_never_raise :
  forall (cfg : Config) (rt : Runtime) (w : World),
    let caught (body op : M Envelope) :=
      (exists env w', op w = (inr env, w')) /\
      (forall e w',
          body w = (inl e, w') ->
          exists env,
            op w = (inr env, w') /\
            success env = false /\
            error env = Some (lit "Exception: " ++ str_exn rt e)) in
    (forall p m t,
        caught (WhatsAppService.send_message_try cfg rt p m t)
               (WhatsAppService.send_message cfg rt p m t)) /\
    (forall p t ps,
        caught (WhatsAppService.send_template_message_try cfg rt p t ps)
               (WhatsAppService.send_template_message cfg rt p t ps)) /\
    (forall p u mt c,
        caught (WhatsAppService.send_media_message_try cfg rt p u mt c)
               (WhatsAppService.send_media_message cfg rt p u mt c)).
Proof.
  intros cfg rt w caught.
  split; [|split]; intros; apply guarded_never_raises.
Qed.

(** The same on the configuration without key and a gateway that accepts
    everything: the template goes out, with a null [api_key]. *)
Example send_template_message_without_key :
  WhatsAppService.send_template_message (without_key Demo.cfg) Demo.rt
    (lit "0712345678") (lit "welcome") None Demo.start =
  (inr Demo.accepted,
   {| db := Demo.empty_db;
      calls :=
        [ {| url := lit "https://ngumzo.com/v1/send-message";
             method := lit "POST";
             headers := [(lit "Content-Type", lit "application/json")];
             json_body :=
               Some (JDict [ (lit "api_key", JNull);
                             (lit "sender_id", JStr (lit "AISHA"));
                             (lit "to", JStr (lit "+254712345678"));
                             (lit "message_type", JStr (lit "template"));
                             (lit "template_name", JStr (lit "welcome"));
                             (lit "parameters", JList []) ]);
             timeout := Some 30%Z |} ] |}).
Proof. vm_compute. reflexivity. Qed.

(** The [try] blocks do raise: exactly what [call_api] raises. *)
Lemma send_template_message_try_raises
    (cfg : Config) (rt : Runtime) (p t : pystr) (ps : option (list json))
    (w : World) (e : exn) :
  let req :=
    WhatsAppService.gateway_request cfg
      (WhatsAppService.template_payload cfg
         (WhatsAppService._normalize_phone rt p) t ps) in
  api rt (calls w) req = inl e ->
  WhatsAppService.send_template_message_try cfg rt p t ps w =
  (inl e, called w req).
Proof.
  intros req H.
  unfold req, WhatsAppService.gateway_request, called in *.
  unfold WhatsAppService.send_template_message_try, bind, call_api.
  cbv zeta. now rewrite H.
Qed.

Lemma gateway_operations_never_raise_witness :
  let w' :=
    called Demo.start
      (WhatsAppService.gateway_request Demo.cfg
         (WhatsAppService.template_payload Demo.cfg
            (WhatsAppService._normalize_phone
               (Demo.rt_with (inl Demo.timed_out)) (lit "0712345678"))
            (lit "welcome") None)) in
  exists env,
    WhatsAppService.send_template_message Demo.cfg
      (Demo.rt_with (inl Demo.timed_out))
      (lit "0712345678") (lit "welcome") None Demo.start = (inr env, w') /\
    success env = false /\
    error env =
    Some (lit "Exception: "
          ++ str_exn (Demo.rt_with (inl Demo.timed_out)) Demo.timed_out).
Proof.
  exact (proj2
           (proj1 (proj2 (gateway_operations_never_raise Demo.cfg
                            (Demo.rt_with (inl Demo.timed_out)) Demo.start))
              (lit "0712345678") (lit "welcome") None)
           Demo.timed_out _
           (send_template_message_try_raises Demo.cfg
              (Demo.rt_with (inl Demo.timed_out))
              (lit "0712345678") (lit "welcome") None Demo.start eq_refl)).
Defined.

(** C8.  The payload [send_template_message] hands to [call_api] has a
    "parameters" field: the empty list when the argument is [None], the
    supplied list otherwise. *)
Theorem template_parameters_never_null :
  forall (cfg : Config) (rt : Runtime) (w : World)
         (p t : pystr) (parameters : option (list json)),
    exists payload : json,
      snd (WhatsAppService.send_template_message cfg rt p t parameters w) =
      called w (WhatsAppService.gateway_request cfg payload) /\
      field payload "parameters" =
      Some (JList (match parameters with
                   | None => []
                   | Some l => l
                   end)).
Proof.
  intros cfg rt w p t parameters.
  rewrite send_template_message_run. simpl.
  eexists. split; [reflexivity|].
  destruct parameters as [[|x l]|]; reflexivity.
Qed.

(** C10.  [send_message] ignores its [message_type] argument: two calls that
    differ in it alone give the same envelope and the same world, and the
    payload's "message_type" field is the literal "text" whatever is passed. *)
Theorem send_message_ignores_message_type :
  forall (cfg : Config) (rt : Runtime) (w : World) (p m t1 t2 : pystr),
    WhatsAppService.send_message cfg rt p m t1 w =
    WhatsAppService.send_message cfg rt p m t2 w /\
    (calls (snd (WhatsAppService.send_message cfg rt p m t1 w)) = calls w \/
     exists payload : json,
       calls (snd (WhatsAppService.send_message cfg rt p m t1 w)) =
       calls w ++ [WhatsAppService.gateway_request cfg payload] /\
       field payload "message_type" = Some (JStr (lit "text"))).
Proof.
  intros cfg rt w p m t1 t2. split.
  - now rewrite !send_message_run.
  - rewrite send_message_run.
    destruct (Py.truthy (NGUMZO_API_KEY cfg)); simpl.
    + right. eexists. split; reflexivity.
    + now left.
Qed.

(** ** The request handlers *)

Lemma pystr_eqb_eq (a b : pystr) : PyStr.eqb a b = true <-> a = b.
Proof.
  revert b. induction a as [|x a IH]; intros [|y b]; simpl;
    try (split; [discriminate | discriminate]); [tauto|].
  rewrite andb_true_iff, N.eqb_eq, IH.
  split; [intros [-> ->]; reflexivity | intros [= -> ->]; tauto].
Qed.

Lemma find_present (p : pystr) (l : list WaitingList.t) :
  (exists r, In r l /\ WaitingList.phone_number r = p) ->
  exists r,
    find (fun r => PyStr.eqb (WaitingList.phone_number r) p) l = Some r.
Proof.
  intros [r [Hin Hp]].
  destruct (find _ l) as [r'|] eqn:E; [now exists r'|].
  apply (find_none _ _ E) in Hin.
  apply pystr_eqb_eq in Hp. congruence.
Qed.

Section HandlerFacts.
Variable cfg : Config.
Variable rt : Runtime.

(** The duplicate branch of waiting-list creation, step by step: the
    400 raised in the [try] block meets the handler's own [except]. *)
Lemma create_duplicate_run (item : Main.WaitingListCreate) (w : World) :
  (exists r, In r (waiting_list (db w)) /\
             WaitingList.phone_number r = Main.wlc_phone_number item) ->
  Main.create_waiting_list_item cfg rt item w =
  (inl (HTTPException 422
          (str_exn rt
             (HTTPException 400
                (lit "Phone number already in waiting list")))), w).
Proof.
  intros H. apply find_present in H. destruct H as [r Hr].
  unfold Main.create_waiting_list_item, try_except, bind,
    Session.first_waiting_by_phone.
  now rewrite Hr.
Qed.

Lemma extract_text_path (d : json) :
  match text_at_path d with
  | Some text => Main.extract_text d = inr text
  | None => exists e, Main.extract_text d = inl e
  end.
Proof.
  unfold text_at_path, Main.extract_text, Py.bind, Py.getitem_str,
    Py.getitem_int.
  repeat
    match goal with
    | |- context [match ?x with _ => _ end] =>
        first [ is_var x
              | match x with dict_lookup _ _ => idtac end ];
        destruct x; simpl
    end;
    try reflexivity; eexists; reflexivity.
Qed.

End HandlerFacts.

Section SendHandlerFacts.
Variable cfg : Config.
Variable rt : Runtime.

Lemma enveloped_returns (r : exn + Envelope) :
  exists env, enveloped rt r = inr env.
Proof. destruct r; simpl; eauto. Qed.

Lemma send_message_quiet (p m t : pystr) (w : World) :
  quiet (WhatsAppService.send_message cfg rt p m t) w.
Proof.
  unfold quiet. rewrite send_message_run.
  destruct (Py.truthy (NGUMZO_API_KEY cfg)); simpl; [|eauto].
  destruct (enveloped_returns (api rt (calls w)
    (WhatsAppService.gateway_request cfg
       (WhatsAppService.text_payload cfg
          (WhatsAppService._normalize_phone rt p) m)))) as [env ->].
  eauto.
Qed.




End SendHandlerFacts.

(** The text handler on two gateways: an accepted message is stored with the
    id the gateway reports, a refused one is not stored. *)
Example send_whatsapp_text_accepted :
  Main.send_whatsapp_text Demo.cfg Demo.rt Demo.hello Demo.start =
  (inr Demo.accepted,
   {| db := {| waiting_list := [];
               whatsapp_messages :=
                 [ sent_record Demo.empty_db (lit "0712345678") (lit "hello")
                     (lit "text") (JStr (lit "m-1")) ];
               pending := [] |};
      calls := [ WhatsAppService.gateway_request Demo.cfg
                   (WhatsAppService.text_payload Demo.cfg
                      (lit "+254712345678") (lit "hello")) ] |}).
Proof. vm_compute. reflexivity. Qed.

Example send_whatsapp_text_refused :
  Main.send_whatsapp_text Demo.cfg (Demo.rt_with (inr Demo.refused))
    Demo.hello Demo.start =
  (inr Demo.refused,
   {| db := Demo.empty_db;
      calls := [ WhatsAppService.gateway_request Demo.cfg
                   (WhatsAppService.text_payload Demo.cfg
                      (lit "+254712345678") (lit "hello")) ] |}).
Proof. vm_compute. reflexivity. Qed.



(** C6.  Waiting-list creation for a phone number the waiting list already
    holds ends in an HTTP error of the 4xx class, with no outbound call made
    (so no message sent, whatever the configuration) and the waiting list,
    like the rest of the store, as it was. *)
Theorem duplicate_phone_rejected_without_effects :
  forall (cfg : Config) (rt : Runtime) (item : Main.WaitingListCreate)
         (w : World),
    (exists r, In r (waiting_list (db w)) /\
               WaitingList.phone_number r = Main.wlc_phone_number item) ->
    exists status_code detail,
      fst (Main.create_waiting_list_item cfg rt item w) =
      inl (HTTPException status_code detail) /\
      is_client_error status_code = true /\
      calls (snd (Main.create_waiting_list_item cfg rt item w)) = calls w /\
      db (snd (Main.create_waiting_list_item cfg rt item w)) = db w.
Proof.
  intros cfg rt item w H.
  rewrite (create_duplicate_run cfg rt item w H). simpl.
  eexists _, _. repeat split.
Qed.

Lemma duplicate_phone_rejected_without_effects_witness :
  exists status_code detail,
    fst (Main.create_waiting_list_item Demo.cfg Demo.rt Demo.again
           Demo.enrolled) =
    inl (HTTPException status_code detail) /\
    is_client_error status_code = true /\
    calls (snd (Main.create_waiting_list_item Demo.cfg Demo.rt Demo.again
                  Demo.enrolled)) = calls Demo.enrolled /\
    db (snd (Main.create_waiting_list_item Demo.cfg Demo.rt Demo.again
               Demo.enrolled)) = db Demo.enrolled.
Proof.
  apply (duplicate_phone_rejected_without_effects Demo.cfg Demo.rt
           Demo.again Demo.enrolled).
  exists Demo.amina. split; [left; reflexivity | reflexivity].
Defined.

(** C9.  The error surfaced for a duplicate phone number carries status 422,
    not 400: the 400 raised in the [try] block is caught by the handler's own
    [except Exception] and re-raised as a 422 whose detail is the text of the
    caught exception. *)
Theorem duplicate_phone_surfaces_as_422 :
  forall (cfg : Config) (rt : Runtime) (item : Main.WaitingListCreate)
         (w : World),
    (exists r, In r (waiting_list (db w)) /\
               WaitingList.phone_number r = Main.wlc_phone_number item) ->
    let original :=
      HTTPException 400 (lit "Phone number already in waiting list") in
    fst (Main.create_waiting_list_item cfg rt item w) =
    inl (HTTPException 422 (str_exn rt original)) /\
    forall detail,
      fst (Main.create_waiting_list_item cfg rt item w) <>
      inl (HTTPException 400 detail).
Proof.
  intros cfg rt item w H original.
  rewrite (create_duplicate_run cfg rt item w H). simpl.
  split; [reflexivity | intros detail; discriminate].
Qed.

Lemma duplicate_phone_surfaces_as_422_witness :
  fst (Main.create_waiting_list_item Demo.cfg Demo.rt Demo.again
         Demo.enrolled) =
  inl (HTTPException 422
         (str_exn Demo.rt
            (HTTPException 400
               (lit "Phone number already in waiting list")))) /\
  forall detail,
    fst (Main.create_waiting_list_item Demo.cfg Demo.rt Demo.again
           Demo.enrolled) <>
    inl (HTTPException 400 detail).
Proof.
  apply (duplicate_phone_surfaces_as_422 Demo.cfg Demo.rt Demo.again
           Demo.enrolled).
  exists Demo.amina. split; [left; reflexivity | reflexivity].
Defined.

(** C4.  For every prompt the Gemini handler makes one call whose body is
    [{contents: [{parts: [{text: prompt}]}]}]; on a success envelope with data
    it answers [{response: text}] for the [text] found under
    [candidates[0].content.parts[0].text], and when that path (or the data
    itself) is absent it raises instead of returning. *)
Theorem gemini_payload_and_strict_extraction :
  forall (cfg : Config) (rt : Runtime) (request : Main.GeminiRequest)
         (w : World),
    let req :=
      {| url := Main.GEMINI_API_URL ++ lit "?key="
                ++ Py.format (GEMINI_API_KEY cfg);
         method := lit "POST";
         headers := [(lit "Content-Type", lit "application/json")];
         json_body :=
           Some (JDict [ (lit "contents",
                   JList [ JDict [ (lit "parts",
                     JList [ JDict [ (lit "text",
                       JStr (Main.prompt request)) ] ]) ] ]) ]);
         timeout := None |} in
    let run := Main.get_gemini_response cfg rt request w in
    snd run = called w req /\
    forall result,
      api rt (calls w) req = inr result ->
      success result = true ->
      match
        match data result with
        | Some d => text_at_path d
        | None => None
        end
      with
      | Some text => fst run = inr (JDict [ (lit "response", text) ])
      | None => exists e, fst run = inl e
      end.
Proof.
  intros cfg rt request w req run.
  unfold run, Main.get_gemini_response, bind, call_api.
  change (Main.gemini_payload (Main.prompt request)) with
    (JDict [ (lit "contents",
       JList [ JDict [ (lit "parts",
         JList [ JDict [ (lit "text", JStr (Main.prompt request)) ] ]) ] ]) ]).
  change WhatsAppService.json_headers with
    [(lit "Content-Type", lit "application/json")].
  cbv zeta. fold req.
  split.
  - destruct (api rt (calls w) req) as [e|result]; [reflexivity|].
    destruct (success result); simpl; [|reflexivity].
    destruct (data result); simpl; [|reflexivity].
    unfold lift, bind. destruct (Main.extract_text j); reflexivity.
  - intros result Hres Hs. rewrite Hres, Hs. simpl.
    destruct (data result) as [d|]; simpl; [|eauto].
    unfold lift, bind. pose proof (extract_text_path d) as Hx.
    destruct (text_at_path d) as [text|].
    + now rewrite Hx.
    + destruct Hx as [e ->]. now exists e.
Qed.

Lemma gemini_payload_and_strict_extraction_witness :
  fst (Main.get_gemini_response Demo.cfg (Demo.rt_with (inr Demo.answered))
         Demo.ask Demo.start) =
  inr (JDict [ (lit "response", JStr (lit "Jambo!")) ]) /\
  exists e,
    fst (Main.get_gemini_response Demo.cfg
           (Demo.rt_with (inr Demo.unanswered)) Demo.ask Demo.start) = inl e.
Proof.
  split.
  - exact (proj2 (gemini_payload_and_strict_extraction Demo.cfg
                    (Demo.rt_with (inr Demo.answered)) Demo.ask Demo.start)
             Demo.answered eq_refl eq_refl).
  - exact (proj2 (gemini_payload_and_strict_extraction Demo.cfg
                    (Demo.rt_with (inr Demo.unanswered)) Demo.ask Demo.start)
             Demo.unanswered eq_refl eq_refl).
Defined.

(** ** The validators *)

Section RegexFacts.

Lemma run_lits (p s : pystr) (k : pystr -> bool) :
  Re.run (Re.lits p) s k = true <->
  exists rest, s = p ++ rest /\ k rest = true.
Proof.
  revert s k. induction p as [|c p IH]; intros s k; simpl.
  - split; [intros H; now exists s | intros [rest [-> H]]; exact H].
  - destruct s as [|x s]; simpl.
    + split; [discriminate | intros [rest [H _]]; discriminate H].
    + rewrite andb_true_iff, N.eqb_eq, IH. split.
      * intros [-> [rest [-> H]]]. now exists rest.
      * intros [rest [[= -> ->] H]]. split; [reflexivity | now exists rest].
Qed.

Lemma exactly_class (f : char -> bool) (n : nat) (k : pystr -> bool)
    (s : pystr) :
  Re.exactly (Re.run (Re.Class f)) n k s = true <->
  exists d rest,
    s = d ++ rest /\ List.length d = n /\ forallb f d = true /\
    k rest = true.
Proof.
  revert s. induction n as [|n IH]; intros s; simpl.
  - split.
    + intros H. now exists [], s.
    + intros [d [rest [-> [Hl [_ H]]]]].
      destruct d; [exact H | discriminate Hl].
  - destruct s as [|x s].
    + split; [discriminate|].
      intros [d [rest [Hs [Hl _]]]].
      destruct d; [discriminate Hl | discriminate Hs].
    + rewrite andb_true_iff, IH. split.
      * intros [Hx [d [rest [-> [Hl [Hf Hk]]]]]].
        exists (x :: d), rest. simpl. rewrite Hx, Hf, Hl. now repeat split.
      * intros [d [rest [Hs [Hl [Hf Hk]]]]].
        destruct d as [|y d]; [discriminate Hl|].
        simpl in Hs, Hl, Hf. injection Hs as -> ->.
        apply andb_true_iff in Hf. destruct Hf as [Hy Hf].
        split; [exact Hy|]. exists d, rest.
        repeat split; [now injection Hl | exact Hf | exact Hk].
Qed.

Lemma upto_class (f : char -> bool) (m : nat) (k : pystr -> bool)
    (s : pystr) :
  Re.upto (Re.run (Re.Class f)) m k s = true <->
  exists d rest,
    s = d ++ rest /\ List.length d <= m /\ forallb f d = true /\
    k rest = true.
Proof.
  revert s. induction m as [|m IH]; intros s; simpl.
  - split.
    + intros H. exists [], s. now repeat split.
    + intros [d [rest [-> [Hl [_ H]]]]].
      destruct d; [exact H | simpl in Hl; lia].
  - rewrite orb_true_iff. split.
    + intros [H | H].
      * destruct s as [|x s]; [discriminate H|].
        apply andb_true_iff in H. destruct H as [Hx H].
        apply IH in H. destruct H as [d [rest [-> [Hl [Hf Hk]]]]].
        exists (x :: d), rest. simpl. rewrite Hx, Hf.
        repeat split; [lia | exact Hk].
      * exists [], s. simpl. repeat split; [lia | exact H].
    + intros [d [rest [-> [Hl [Hf Hk]]]]].
      destruct d as [|y d]; [now right|]. left.
      simpl in Hl, Hf. apply andb_true_iff in Hf. destruct Hf as [Hy Hf].
      simpl. rewrite Hy. simpl. apply IH. exists d, rest.
      repeat split; [lia | exact Hf | exact Hk].
Qed.

Lemma run_dollar (s : pystr) :
  Re.run Re.Dollar s (fun _ => true) = true <-> at_most_newline s.
Proof.
  unfold at_most_newline. simpl. split.
  - destruct s as [|c s]; [now left|].
    split_char c; try discriminate.
    destruct s; [now right | discriminate].
  - intros [-> | ->]; reflexivity.
Qed.

End RegexFacts.

Section ValidatorFacts.
Variable ucd : Unicode.

Lemma repeat_then_dollar (f : char -> bool) (lo hi : nat) (s : pystr) :
  Re.run (Re.Seq (Re.Repeat (Re.Class f) lo hi) Re.Dollar) s (fun _ => true)
  = true <->
  exists d tail,
    s = d ++ tail /\ lo <= List.length d <= lo + (hi - lo) /\
    forallb f d = true /\ at_most_newline tail.
Proof.
  change (Re.run (Re.Seq (Re.Repeat (Re.Class f) lo hi) Re.Dollar) s
            (fun _ => true))
    with (Re.exactly (Re.run (Re.Class f)) lo
            (Re.upto (Re.run (Re.Class f)) (hi - lo)
               (fun s0 => Re.run Re.Dollar s0 (fun _ => true))) s).
  rewrite exactly_class. split.
  - intros [d [rest [-> [Hl [Hf H]]]]].
    apply upto_class in H. destruct H as [d' [tail [-> [Hl' [Hf' Ht]]]]].
    apply run_dollar in Ht.
    exists (d ++ d'), tail. rewrite <- app_assoc, length_app, forallb_app, Hf, Hf'.
    repeat split; [lia | lia | exact Ht].
  - intros [d [tail [-> [Hl [Hf H]]]]].
    exists (firstn lo d), (skipn lo d ++ tail).
    rewrite <- (firstn_skipn lo d) in Hf. rewrite forallb_app in Hf.
    apply andb_true_iff in Hf. destruct Hf as [Hf1 Hf2].
    repeat split.
    + now rewrite app_assoc, firstn_skipn.
    + rewrite length_firstn. lia.
    + exact Hf1.
    + apply upto_class. exists (skipn lo d), tail.
      repeat split; [rewrite length_skipn; lia | exact Hf2 |].
      now apply run_dollar.
Qed.

Lemma phone_pattern_matches (v : pystr) :
  Re.matches (Intake.phone_pattern ucd) v = true <-> phone_shape ucd v.
Proof.
  unfold Re.matches, Intake.phone_pattern, phone_shape.
  set (rest_ok := fun s' : pystr =>
         Re.run (Re.Seq (Re.Repeat (Re.Class (isdecimal ucd)) 9 9) Re.Dollar)
           s' (fun _ => true)).
  change (Re.run _ v _)
    with (Re.run (Re.lits (lit "254")) v rest_ok
          || (Re.run (Re.lits (lit "+254")) v rest_ok
              || Re.run (Re.lits (lit "0")) v rest_ok)).
  rewrite !orb_true_iff, !run_lits. unfold rest_ok.
  split.
  - intros H.
    assert (Hp : exists prefix rest,
               (prefix = lit "254" \/ prefix = lit "+254" \/ prefix = lit "0")
               /\ v = prefix ++ rest /\
               Re.run (Re.Seq (Re.Repeat (Re.Class (isdecimal ucd)) 9 9)
                         Re.Dollar) rest (fun _ => true) = true).
    { destruct H as [[r [-> Hr]] | [[r [-> Hr]] | [r [-> Hr]]]];
        eexists _, r; (split; [|split; [reflexivity | exact Hr]]); tauto. }
    clear H. destruct Hp as [prefix [rest [Hp [-> Hr]]]].
    apply repeat_then_dollar in Hr.
    destruct Hr as [d [tail [-> [Hl [Hf Ht]]]]].
    exists prefix, d, tail. repeat split; [exact Hp | lia | exact Hf | exact Ht].
  - intros [prefix [d [tail [-> [Hp [Hl [Hf Ht]]]]]]].
    assert (H : Re.run (Re.Seq (Re.Repeat (Re.Class (isdecimal ucd)) 9 9)
                          Re.Dollar) (d ++ tail) (fun _ => true) = true).
    { apply repeat_then_dollar. exists d, tail.
      repeat split; [lia | lia | exact Hf | exact Ht]. }
    destruct Hp as [-> | [-> | ->]].
    + left. now exists (d ++ tail).
    + right. left. now exists (d ++ tail).
    + right. right. now exists (d ++ tail).
Qed.

Lemma username_pattern_matches (v : pystr) :
  Re.matches (Intake.username_pattern ucd) v = true <-> username_shape ucd v.
Proof.
  unfold Re.matches, Intake.username_pattern, username_shape.
  rewrite repeat_then_dollar. simpl Nat.sub. simpl Nat.add.
  split; intros [d [tail [-> [Hl [Hf Ht]]]]]; exists d, tail;
    repeat split; try lia; assumption.
Qed.

End ValidatorFacts.

Lemma validate_phone_accepts_shape_helper (ucd : Unicode) (v : pystr) :
  Intake.validate_phone ucd v = inr v -> phone_shape ucd v.
Proof.
  unfold Intake.validate_phone. intros H.
  apply phone_pattern_matches.
  destruct (Re.matches (Intake.phone_pattern ucd) v);
    [reflexivity | discriminate H].
Qed.

(** X4.  [validate_phone] returns its argument unchanged exactly when it is
    one of the prefixes 254, +254 or 0, then nine Unicode decimal digits, then
    nothing or one final line feed; every other string is refused with the
    "Invalid Kenyan phone number format" error. *)
Theorem validate_phone_accepts_exactly :
  forall (ucd : Unicode) (v : pystr),
    (Intake.validate_phone ucd v = inr v <-> phone_shape ucd v) /\
    (Intake.validate_phone ucd v =
     inl {| Intake.message :=
              lit "Invalid Kenyan phone number format: 0712345678 or +254712345678" |}
     <-> ~ phone_shape ucd v).
Proof.
  intros ucd v. rewrite <- phone_pattern_matches.
  unfold Intake.validate_phone.
  destruct (Re.matches (Intake.phone_pattern ucd) v); simpl; split; split;
    try reflexivity; try discriminate; try congruence; intuition congruence.
Qed.

(** X5.  [validate_username] returns its argument unchanged exactly when it
    is two to fifty characters, each a letter a-z or A-Z, a whitespace
    character or a hyphen, followed by nothing or one final line feed; every
    other string is refused. *)
Theorem validate_username_accepts_exactly :
  forall (ucd : Unicode) (v : pystr),
    (Intake.validate_username ucd v = inr v <-> username_shape ucd v) /\
    (Intake.validate_username ucd v =
     inl {| Intake.message :=
              lit "Username must contain only letters, spaces, or hyphens (2-50 characters)" |}
     <-> ~ username_shape ucd v).
Proof.
  intros ucd v. rewrite <- username_pattern_matches.
  unfold Intake.validate_username.
  destruct (Re.matches (Intake.username_pattern ucd) v); simpl; split; split;
    try reflexivity; try discriminate; try congruence; intuition congruence.
Qed.

(** The validators on a few inputs: the three formats, a trailing line feed
    and Arabic-Indic digits pass; eight digits, a letter and two line feeds
    do not; a fifty-character name with a line feed passes, one character
    does not. *)
Example validators_samples :
  Re.matches (Intake.phone_pattern sample_ucd) (lit "0712345678") = true /\
  Re.matches (Intake.phone_pattern sample_ucd) (lit "254712345678") = true /\
  Re.matches (Intake.phone_pattern sample_ucd) (lit "+254712345678") = true /\
  Re.matches (Intake.phone_pattern sample_ucd)
    (lit "0712345678" ++ [10%N]) = true /\
  Re.matches (Intake.phone_pattern sample_ucd)
    (lit "07" ++ [1633; 1634; 1635]%N ++ lit "45678") = true /\
  Re.matches (Intake.phone_pattern sample_ucd) (lit "071234567") = false /\
  Re.matches (Intake.phone_pattern sample_ucd) (lit "07123456789") = false /\
  Re.matches (Intake.phone_pattern sample_ucd) (lit "0712345a78") = false /\
  Re.matches (Intake.phone_pattern sample_ucd)
    (lit "0712345678" ++ [10; 10]%N) = false /\
  Re.matches (Intake.username_pattern sample_ucd) (lit "Amina K") = true /\
  Re.matches (Intake.username_pattern sample_ucd) (lit "A") = false /\
  Re.matches (Intake.username_pattern sample_ucd) (lit "Amina_K") = false.
Proof. vm_compute. repeat split. Qed.

(** ** More on the normaliser *)

Section StripFacts.
Variable ucd : Unicode.

Lemma lstrip_app_space (a b : pystr) :
  Forall (fun c => isspace ucd c = true) a ->
  lstrip ucd (a ++ b) = lstrip ucd b.
Proof.
  induction 1 as [|c a Hc _ IH]; simpl; [reflexivity|].
  now rewrite Hc.
Qed.

Lemma lstrip_all_space (a : pystr) :
  Forall (fun c => isspace ucd c = true) a -> lstrip ucd a = [].
Proof.
  intros H. rewrite <- (app_nil_r a). now rewrite lstrip_app_space.
Qed.

(** Stripping a string without whitespace that is followed by whitespace
    alone gives the string. *)
Lemma strip_core (body tail : pystr) :
  Forall (fun c => isspace ucd c = false) body ->
  Forall (fun c => isspace ucd c = true) tail ->
  strip ucd (body ++ tail) = body.
Proof.
  intros Hb Ht. unfold strip, rstrip.
  destruct body as [|b body].
  - simpl. rewrite (lstrip_all_space Ht). reflexivity.
  - assert (Hl : lstrip ucd ((b :: body) ++ tail) = (b :: body) ++ tail).
    { simpl. now rewrite (Forall_inv Hb). }
    rewrite Hl, rev_app_distr.
    rewrite lstrip_app_space by now apply Forall_rev.
    rewrite lstrip_no_space by now apply Forall_rev.
    apply rev_involutive.
Qed.

Lemma lstrip_incl (s : pystr) (c : char) : In c (lstrip ucd s) -> In c s.
Proof.
  induction s as [|x s IH]; simpl; [tauto|].
  destruct (isspace ucd x); [intros H; right; now apply IH | tauto].
Qed.

Lemma strip_incl (s : pystr) (c : char) : In c (strip ucd s) -> In c s.
Proof.
  unfold strip, rstrip. intros H.
  apply in_rev, lstrip_incl, in_rev in H.
  now apply lstrip_incl.
Qed.

Lemma filter_none (f : char -> bool) (s : pystr) :
  (forall c, In c s -> f c = false) -> filter f s = [].
Proof.
  induction s as [|x s IH]; intros H; simpl; [reflexivity|].
  rewrite (H x (or_introl eq_refl)). apply IH.
  intros c Hc. apply H. now right.
Qed.

Lemma decimal_kept (c : char) :
  (forall c, uni_isdecimal ucd c = true -> uni_isdigit ucd c = true) ->
  isdecimal ucd c = true -> kept ucd c = true.
Proof.
  intros Hd. unfold isdecimal, kept, isdigit.
  destruct (c <? 256)%N.
  - intros ->. reflexivity.
  - intros H. now rewrite (Hd c H).
Qed.

End StripFacts.

(** X1.  Whatever the input, the normalised number starts with '+' and every
    character of it is a digit or '+': whitespace, separators and letters
    never survive. *)
Theorem normalize_phone_result_shape :
  forall (ucd : Unicode) (x : pystr),
    exists t : pystr,
      _normalize_phone ucd x = 43%N :: t /\
      Forall (fun c => isdigit ucd c = true \/ c = 43%N) t.
Proof.
  intros ucd x.
  destruct (normalize_phone_shape ucd x) as [t [E H]].
  exists t. split; [exact E|].
  apply Forall_inv_tail in H.
  eapply Forall_impl; [|exact H].
  intros c Hc. unfold kept in Hc.
  apply orb_true_iff in Hc. destruct Hc as [Hc | Hc]; [now left|].
  right. now apply N.eqb_eq.
Qed.

(** X2.  The normaliser validates nothing: an input without any digit or '+'
    (the empty string, blanks, letters) is answered with the bare "+". *)
Theorem normalize_phone_without_digits :
  forall (ucd : Unicode) (x : pystr),
    (forall c, In c x -> isdigit ucd c = false /\ c <> 43%N) ->
    _normalize_phone ucd x = lit "+".
Proof.
  intros ucd x H. rewrite normalize_phone_unfold.
  rewrite filter_none; [reflexivity|].
  intros c Hc. apply strip_incl in Hc. destruct (H c Hc) as [Hd Hp].
  rewrite Hd. simpl. now apply N.eqb_neq.
Qed.

Lemma normalize_phone_without_digits_witness :
  _normalize_phone sample_ucd (lit " n/a - ") = lit "+".
Proof.
  apply (normalize_phone_without_digits sample_ucd (lit " n/a - ")).
  intros c Hc. simpl in Hc.
  repeat (destruct Hc as [<- | Hc]; [split; [reflexivity | discriminate]|]).
  destruct Hc.
Defined.

(** On a string of kept characters the normaliser only applies the prefix
    rule. *)
Lemma normalize_phone_kept (ucd : Unicode) (s : pystr) :
  (forall c, uni_isdigit ucd c = true -> uni_isspace ucd c = false) ->
  Forall (fun c => kept ucd c = true) s ->
  _normalize_phone ucd s = add_prefix s.
Proof.
  intros Hd Hall. rewrite normalize_phone_unfold.
  rewrite strip_no_space.
  - change (fun c => isdigit ucd c || N.eqb c 43) with (kept ucd).
    now rewrite filter_all.
  - eapply Forall_impl; [|exact Hall]. now apply kept_not_space.
Qed.

(** X3.  The three accepted ways of writing one subscriber agree: for a rest
    [r] of digits, "0" + r, "254" + r and "+254" + r all normalise to
    "+254" + r. *)
Theorem normalize_phone_formats_agree :
  forall (ucd : Unicode) (r : pystr),
    (forall c, uni_isdigit ucd c = true -> uni_isspace ucd c = false) ->
    Forall (fun c => kept ucd c = true) r ->
    _normalize_phone ucd (lit "0" ++ r) = lit "+254" ++ r /\
    _normalize_phone ucd (lit "254" ++ r) = lit "+254" ++ r /\
    _normalize_phone ucd (lit "+254" ++ r) = lit "+254" ++ r.
Proof.
  intros ucd r Hd Hr.
  assert (Hgo : forall p : pystr,
             Forall (fun c => kept ucd c = true) p ->
             _normalize_phone ucd (p ++ r) = add_prefix (p ++ r)).
  { intros p Hp. apply normalize_phone_kept; [exact Hd|].
    apply Forall_app. now split. }
  repeat split; rewrite Hgo by (repeat constructor);
    rewrite <- add_prefix_branches; reflexivity.
Qed.

Lemma normalize_phone_formats_agree_witness :
  _normalize_phone sample_ucd (lit "0" ++ lit "712345678")
  = lit "+254" ++ lit "712345678" /\
  _normalize_phone sample_ucd (lit "254" ++ lit "712345678")
  = lit "+254" ++ lit "712345678" /\
  _normalize_phone sample_ucd (lit "+254" ++ lit "712345678")
  = lit "+254" ++ lit "712345678".
Proof.
  apply (@normalize_phone_formats_agree sample_ucd (lit "712345678")
           sample_ucd_digit_not_space).
  repeat constructor.
Defined.

(** X6.  A phone number that [validate_phone] lets through is one of the
    three prefixes, nine decimal digits and at most a final line feed, and it
    is normalised to "+254" followed by those nine digits of its own,
    whichever prefix it was written with and whether or not a line feed ends
    it.  (The Unicode database is any in which decimal digits are digits and
    no digit is whitespace.) *)
Theorem validated_phone_normalizes_to_canonical :
  forall (ucd : Unicode) (v : pystr),
    (forall c, uni_isdecimal ucd c = true -> uni_isdigit ucd c = true) ->
    (forall c, uni_isdigit ucd c = true -> uni_isspace ucd c = false) ->
    Intake.validate_phone ucd v = inr v ->
    exists prefix digits tail : pystr,
      v = prefix ++ digits ++ tail /\
      (prefix = lit "254" \/ prefix = lit "+254" \/ prefix = lit "0") /\
      List.length digits = 9 /\
      forallb (isdecimal ucd) digits = true /\
      at_most_newline tail /\
      _normalize_phone ucd (prefix ++ digits ++ tail) = lit "+254" ++ digits.
Proof.
  intros ucd v Hdec Hd Hv.
  apply (validate_phone_accepts_shape_helper ucd) in Hv.
  destruct Hv as [prefix [d [tail [-> [Hp [Hl [Hf Ht]]]]]]].
  exists prefix, d, tail.
  split; [reflexivity|]. split; [exact Hp|].
  split; [exact Hl|]. split; [exact Hf|]. split; [exact Ht|].
  assert (Hkd : Forall (fun c => kept ucd c = true) d).
  { apply Forall_forall. intros c Hc.
    apply decimal_kept; [exact Hdec|].
    rewrite forallb_forall in Hf. now apply Hf. }
  assert (Hkp : Forall (fun c => kept ucd c = true) prefix)
    by (destruct Hp as [-> | [-> | ->]]; repeat constructor).
  assert (Hall : Forall (fun c => kept ucd c = true) (prefix ++ d))
    by (apply Forall_app; now split).
  rewrite normalize_phone_unfold, app_assoc.
  rewrite strip_core.
  - change (fun c => isdigit ucd c || N.eqb c 43) with (kept ucd).
    rewrite filter_all by exact Hall.
    rewrite <- add_prefix_branches.
    destruct Hp as [-> | [-> | ->]]; reflexivity.
  - eapply Forall_impl; [|exact Hall]. now apply kept_not_space.
  - destruct Ht as [-> | ->]; repeat constructor.
Qed.

Lemma validated_phone_normalizes_to_canonical_witness :
  exists prefix digits tail : pystr,
    lit "254712345678" ++ [10%N] = prefix ++ digits ++ tail /\
    (prefix = lit "254" \/ prefix = lit "+254" \/ prefix = lit "0") /\
    List.length digits = 9 /\
    forallb (isdecimal sample_ucd) digits = true /\
    at_most_newline tail /\
    _normalize_phone sample_ucd (prefix ++ digits ++ tail) =
    lit "+254" ++ digits.
Proof.
  apply (@validated_phone_normalizes_to_canonical sample_ucd
           (lit "254712345678" ++ [10%N])).
  - intros c H. exact H.
  - exact sample_ucd_digit_not_space.
  - vm_compute. reflexivity.
Defined.

(** ** More on the gateway client *)

Lemma snoc_neq {A} (l : list A) (x : A) : l ++ [x] <> l.
Proof.
  intros H. apply (f_equal (@List.length A)) in H.
  rewrite length_app in H. simpl in H. lia.
Qed.

Lemma truthy_false (o : option pystr) :
  Py.truthy o = false <-> o = None \/ o = Some [].
Proof.
  destruct o as [[|c s]|]; simpl; split; try tauto; try discriminate.
  - intros [H | H]; discriminate H.
Qed.

(** X7.  A gateway operation that reaches [call_api] invokes it exactly once,
    whatever it answers or raises (nothing is retried), and hands back an
    envelope it returns unchanged.  [send_template_message] and
    [send_media_message] always reach it, [send_message] when the key is
    set. *)
Theorem gateway_calls_once_and_passes_envelope :
  forall (cfg : Config) (rt : Runtime) (w : World),
    let passes (op : M Envelope) (payload : json) :=
      snd (op w) = called w (WhatsAppService.gateway_request cfg payload) /\
      forall env,
        api rt (calls w) (WhatsAppService.gateway_request cfg payload)
        = inr env ->
        fst (op w) = inr env in
    (forall p t ps,
        passes (WhatsAppService.send_template_message cfg rt p t ps)
          (WhatsAppService.template_payload cfg
             (WhatsAppService._normalize_phone rt p) t ps)) /\
    (forall p u mt c,
        passes (WhatsAppService.send_media_message cfg rt p u mt c)
          (WhatsAppService.media_payload cfg
             (WhatsAppService._normalize_phone rt p) u mt c)) /\
    (forall p m t,
        Py.truthy (NGUMZO_API_KEY cfg) = true ->
        passes (WhatsAppService.send_message cfg rt p m t)
          (WhatsAppService.text_payload cfg
             (WhatsAppService._normalize_phone rt p) m)).
Proof.
  intros cfg rt w passes. split; [|split]; unfold passes.
  - intros p t ps. rewrite send_template_message_run. simpl.
    split; [reflexivity | now intros env ->].
  - intros p u mt c. rewrite send_media_message_run. simpl.
    split; [reflexivity | now intros env ->].
  - intros p m t Hk. rewrite send_message_run, Hk. simpl.
    split; [reflexivity | now intros env ->].
Qed.

Lemma gateway_calls_once_and_passes_envelope_witness :
  snd (WhatsAppService.send_message Demo.cfg Demo.rt (lit "0712345678")
         (lit "hello") (lit "text") Demo.start) =
  called Demo.start
    (WhatsAppService.gateway_request Demo.cfg
       (WhatsAppService.text_payload Demo.cfg
          (WhatsAppService._normalize_phone Demo.rt (lit "0712345678"))
          (lit "hello"))) /\
  forall env,
    api Demo.rt (calls Demo.start)
      (WhatsAppService.gateway_request Demo.cfg
         (WhatsAppService.text_payload Demo.cfg
            (WhatsAppService._normalize_phone Demo.rt (lit "0712345678"))
            (lit "hello"))) = inr env ->
    fst (WhatsAppService.send_message Demo.cfg Demo.rt (lit "0712345678")
           (lit "hello") (lit "text") Demo.start) = inr env.
Proof.
  exact (proj2 (proj2 (gateway_calls_once_and_passes_envelope
                         Demo.cfg Demo.rt Demo.start))
           (lit "0712345678") (lit "hello") (lit "text") eq_refl).
Defined.

(** X8.  [send_message] makes no outbound call exactly when the key is unset
    or the empty string, and then answers the failure envelope that names
    the key, in a world left as it was. *)
Theorem send_message_short_circuits_iff_key_missing :
  forall (cfg : Config) (rt : Runtime) (w : World) (p m t : pystr),
    let missing :=
      NGUMZO_API_KEY cfg = None \/ NGUMZO_API_KEY cfg = Some [] in
    (missing <->
     calls (snd (WhatsAppService.send_message cfg rt p m t w)) = calls w) /\
    (missing <->
     WhatsAppService.send_message cfg rt p m t w =
     (inr (WhatsAppService.failure
             (lit "NGUMZO_API_KEY not found in environment variables")), w)).
Proof.
  intros cfg rt w p m t missing. unfold missing.
  rewrite <- truthy_false, send_message_run.
  destruct (Py.truthy (NGUMZO_API_KEY cfg)); simpl; split; split;
    try reflexivity; try discriminate.
  - intros H. now apply snoc_neq in H.
  - intros H. apply (f_equal snd) in H. simpl in H.
    apply (f_equal calls) in H. simpl in H. now apply snoc_neq in H.
Qed.

(** X9.  Every request one of the three operations adds to the call log
    names a destination that starts with '+' and holds digits and '+' only,
    however the caller wrote the phone number. *)
Theorem gateway_destination_is_canonical :
  forall (cfg : Config) (rt : Runtime) (w : World) (req : ApiRequest),
    let fresh (op : M Envelope) :=
      In req (calls (snd (op w))) ->
      In req (calls w) \/ canonical_destination rt req in
    (forall p m t, fresh (WhatsAppService.send_message cfg rt p m t)) /\
    (forall p t ps,
        fresh (WhatsAppService.send_template_message cfg rt p t ps)) /\
    (forall p u mt c,
        fresh (WhatsAppService.send_media_message cfg rt p u mt c)).
Proof.
  intros cfg rt w req fresh.
  assert (Hto : forall p payload,
             field payload "to" =
             Some (JStr (WhatsAppService._normalize_phone rt p)) ->
             canonical_destination rt
               (WhatsAppService.gateway_request cfg payload)).
  { intros p payload Hf.
    unfold WhatsAppService._normalize_phone in Hf.
    destruct (normalize_phone_shape (ucd rt) p) as [t [E H]].
    rewrite E in Hf. exists payload, t. now repeat split. }
  assert (Hin : forall l (r0 : ApiRequest),
             In req (l ++ [r0]) -> In req l \/ req = r0).
  { intros l r0 H. apply in_app_or in H. destruct H as [H | [H | []]];
      [now left | now right]. }
  split; [|split]; unfold fresh.
  - intros p m t. rewrite send_message_run.
    destruct (Py.truthy (NGUMZO_API_KEY cfg)); simpl; [|now left].
    intros H. apply Hin in H. destruct H as [H | ->]; [now left|].
    right. now apply (Hto p).
  - intros p t ps. rewrite send_template_message_run. simpl.
    intros H. apply Hin in H. destruct H as [H | ->]; [now left|].
    right. now apply (Hto p).
  - intros p u mt c. rewrite send_media_message_run. simpl.
    intros H. apply Hin in H. destruct H as [H | ->]; [now left|].
    right. now apply (Hto p).
Qed.

Lemma gateway_destination_is_canonical_witness :
  canonical_destination Demo.rt
    (WhatsAppService.gateway_request Demo.cfg
       (WhatsAppService.template_payload Demo.cfg
          (WhatsAppService._normalize_phone Demo.rt (lit " 0712 345 678"))
          (lit "welcome") None)).
Proof.
  destruct (proj1 (proj2 (gateway_destination_is_canonical Demo.cfg Demo.rt
                            Demo.start
                            (WhatsAppService.gateway_request Demo.cfg
                               (WhatsAppService.template_payload Demo.cfg
                                  (WhatsAppService._normalize_phone Demo.rt
                                     (lit " 0712 345 678"))
                                  (lit "welcome") None))))
              (lit " 0712 345 678") (lit "welcome") None) as [H | H].
  - rewrite send_template_message_run. simpl. now left.
  - destruct H.
  - exact H.
Defined.

(** ** More on the request handlers *)

Lemma find_absent (p : pystr) (l : list WaitingList.t) :
  (forall r, In r l -> WaitingList.phone_number r <> p) ->
  find (fun r => PyStr.eqb (WaitingList.phone_number r) p) l = None.
Proof.
  intros H. destruct (find _ l) as [r|] eqn:E; [|reflexivity].
  apply find_some in E. destruct E as [Hin Heq].
  apply pystr_eqb_eq in Heq. now apply H in Hin.
Qed.

Section CreationFacts.
Variable cfg : Config.
Variable rt : Runtime.

(** Creation for a phone number not yet listed, on a fresh session: the row
    is committed first, then the welcome message is sent from the world that
    already holds the row. *)
Lemma create_fresh_run (item : Main.WaitingListCreate) (w : World) :
  pending (db w) = [] ->
  (forall r, In r (waiting_list (db w)) ->
             WaitingList.phone_number r <> Main.wlc_phone_number item) ->
  exists env w',
    WhatsAppService.send_message cfg rt (Main.wlc_phone_number item)
      (Main.welcome (Main.wlc_username item)) (lit "text")
      {| db := enrolled_db (db w) item; calls := calls w |} = (inr env, w') /\
    db w' = enrolled_db (db w) item /\
    Main.create_waiting_list_item cfg rt item w =
    (inr (JDict [ (lit "message", JStr (lit "Added to waiting list"));
                  (lit "id",
                    JInt (Z.of_nat (S (List.length (waiting_list (db w))))));
                  (lit "whatsapp_sent", JBool (success env)) ]), w').
Proof.
  intros Hp Hnew.
  destruct (send_message_quiet cfg rt (Main.wlc_phone_number item)
              (Main.welcome (Main.wlc_username item)) (lit "text")
              {| db := enrolled_db (db w) item; calls := calls w |})
    as [env [w' [E Hdb]]].
  exists env, w'. split; [exact E|]. split; [exact Hdb|].
  unfold Main.create_waiting_list_item, try_except, bind,
    Session.first_waiting_by_phone.
  rewrite (@find_absent _ _ Hnew).
  unfold Session.add, Session.commit, Session.refresh_waiting, Session.on_db.
  cbn [db calls pending waiting_list whatsapp_messages].
  rewrite Hp.
  cbn [app fold_left Session.flush_row db calls pending waiting_list
       whatsapp_messages WaitingList.username WaitingList.phone_number].
  rewrite last_last.
  fold (enrolled_row (db w) item). fold (enrolled_db (db w) item).
  rewrite E. reflexivity.
Qed.

(** Without the fresh-session assumption creation still cannot fail once the
    phone number is new. *)
Lemma create_new_returns (item : Main.WaitingListCreate) (w : World) :
  find (fun r => PyStr.eqb (WaitingList.phone_number r)
                   (Main.wlc_phone_number item))
    (waiting_list (db w)) = None ->
  exists response, fst (Main.create_waiting_list_item cfg rt item w)
                   = inr response.
Proof.
  intros Hf.
  unfold Main.create_waiting_list_item, try_except, bind,
    Session.first_waiting_by_phone.
  rewrite Hf.
  unfold Session.add, Session.commit, Session.refresh_waiting, Session.on_db.
  match goal with
  | |- context [WhatsAppService.send_message cfg rt ?a ?b ?c ?W] =>
      destruct (send_message_quiet cfg rt a b c W) as [env [w' [E _]]];
      rewrite E
  end.
  eexists. reflexivity.
Qed.

End CreationFacts.



(** The same, run: the gateway refuses the welcome message, the newcomer is
    enrolled all the same. *)
Example create_waiting_list_item_refused_send :
  Main.create_waiting_list_item Demo.cfg (Demo.rt_with (inr Demo.refused))
    Cases.newcomer Demo.enrolled =
  (inr (JDict [ (lit "message", JStr (lit "Added to waiting list"));
                (lit "id", JInt 2);
                (lit "whatsapp_sent", JBool false) ]),
   {| db := {| waiting_list :=
                 [ Demo.amina;
                   {| WaitingList.id := Some 2%Z;
                      WaitingList.username := lit "Baraka";
                      WaitingList.phone_number := lit "0700000001" |} ];
               whatsapp_messages := [];
               pending := [] |};
      calls :=
        [ WhatsAppService.gateway_request Demo.cfg
            (WhatsAppService.text_payload Demo.cfg (lit "+254700000001")
               (Main.welcome (lit "Baraka"))) ] |}).
Proof. vm_compute. reflexivity. Qed.

(** In this first embedding, where everything raised is an instance of
    [Exception]: waiting-list creation ends in an error exactly when a row
    with the same phone number, compared as written, is already listed, and
    the error is always an HTTP 422. *)
Theorem create_waiting_list_item_fails_iff_duplicate :
  forall (cfg : Config) (rt : Runtime) (item : Main.WaitingListCreate)
         (w : World),
    ((exists e, fst (Main.create_waiting_list_item cfg rt item w) = inl e) <->
     (exists r, In r (waiting_list (db w)) /\
                WaitingList.phone_number r = Main.wlc_phone_number item)) /\
    (forall e,
        fst (Main.create_waiting_list_item cfg rt item w) = inl e ->
        exists detail, e = HTTPException 422 detail).
Proof.
  intros cfg rt item w.
  destruct (find (fun r => PyStr.eqb (WaitingList.phone_number r)
                             (Main.wlc_phone_number item))
              (waiting_list (db w))) as [r|] eqn:Hf.
  - apply find_some in Hf. destruct Hf as [Hin Heq].
    apply pystr_eqb_eq in Heq.
    assert (Hdup : exists r, In r (waiting_list (db w)) /\
                     WaitingList.phone_number r = Main.wlc_phone_number item)
      by now exists r.
    rewrite (create_duplicate_run cfg rt item w Hdup). simpl. split.
    + split; [intros _; exact Hdup | intros _; now eexists].
    + intros e [= <-]. now eexists.
  - destruct (create_new_returns cfg rt item w Hf) as [response E].
    rewrite E. split.
    + split; [intros [e He]; discriminate He|].
      intros [r [Hin Heq]]. apply pystr_eqb_eq in Heq.
      now rewrite (find_none _ _ Hf r Hin) in Heq.
    + intros e He. discriminate He.
Qed.

(** X12.  The duplicate check compares phone numbers as written, not as
    normalised: with "0" + r listed, a creation for "254" + r is accepted,
    and the list then holds two rows whose numbers normalise to the same
    destination. *)
Theorem same_subscriber_enrolls_under_two_formats :
  forall (cfg : Config) (rt : Runtime) (item : Main.WaitingListCreate)
         (w : World) (r : pystr) (listed : WaitingList.t),
    (forall c, uni_isdigit (ucd rt) c = true -> uni_isspace (ucd rt) c = false) ->
    Forall (fun c => kept (ucd rt) c = true) r ->
    pending (db w) = [] ->
    In listed (waiting_list (db w)) ->
    WaitingList.phone_number listed = lit "0" ++ r ->
    Main.wlc_phone_number item = lit "254" ++ r ->
    (forall x, In x (waiting_list (db w)) ->
               WaitingList.phone_number x <> Main.wlc_phone_number item) ->
    exists response w',
      Main.create_waiting_list_item cfg rt item w = (inr response, w') /\
      waiting_list (db w') =
      waiting_list (db w) ++ [enrolled_row (db w) item] /\
      WaitingList.phone_number (enrolled_row (db w) item)
      <> WaitingList.phone_number listed /\
      WhatsAppService._normalize_phone rt
        (WaitingList.phone_number (enrolled_row (db w) item)) =
      WhatsAppService._normalize_phone rt (WaitingList.phone_number listed).
Proof.
  intros cfg rt item w r listed Hd Hr Hp Hin Hl Hi Hnew.
  destruct (create_fresh_run cfg rt item w Hp Hnew)
    as [env [w' [_ [Hdb E]]]].
  eexists _, w'. split; [exact E|]. split; [now rewrite Hdb|].
  split.
  - intros H. apply (Hnew listed Hin). now symmetry.
  - unfold WhatsAppService._normalize_phone. simpl. rewrite Hl, Hi.
    rewrite !normalize_phone_kept;
      try exact Hd; try (apply Forall_app; split; [repeat constructor | exact Hr]).
    rewrite <- !add_prefix_branches. reflexivity.
Qed.

Lemma same_subscriber_enrolls_under_two_formats_witness :
  exists response w',
    Main.create_waiting_list_item Demo.cfg Demo.rt Cases.amina_254
      Demo.enrolled = (inr response, w') /\
    waiting_list (db w') =
    waiting_list (db Demo.enrolled)
    ++ [enrolled_row (db Demo.enrolled) Cases.amina_254] /\
    WaitingList.phone_number (enrolled_row (db Demo.enrolled) Cases.amina_254)
    <> WaitingList.phone_number Demo.amina /\
    WhatsAppService._normalize_phone Demo.rt
      (WaitingList.phone_number
         (enrolled_row (db Demo.enrolled) Cases.amina_254)) =
    WhatsAppService._normalize_phone Demo.rt
      (WaitingList.phone_number Demo.amina).
Proof.
  apply (@same_subscriber_enrolls_under_two_formats Demo.cfg Demo.rt
           Cases.amina_254 Demo.enrolled (lit "712345678") Demo.amina).
  - exact sample_ucd_digit_not_space.
  - repeat constructor.
  - reflexivity.
  - left. reflexivity.
  - reflexivity.
  - reflexivity.
  - intros x [<- | []]. vm_compute. discriminate.
Defined.

Section RecordingFacts.
Variable cfg : Config.
Variable rt : Runtime.

(** A send handler on an operation that has returned envelope [env] in world
    [w1]. *)
Lemma send_handler_run
    (op : M Envelope) (w w1 : World) (env : Envelope)
    (phone content type : pystr) :
  op w = (inr env, w1) ->
  try_except
    (result <- op;;
     Main.store_if_sent result phone content type;;
     ret result)
    (fun e => raise (HTTPException 500 (str_exn rt e))) w =
  if success env then
    match Main.external_id env with
    | inl e => (inl (HTTPException 500 (str_exn rt e)), w1)
    | inr ext =>
        (inr env,
         snd ((Session.add
                 (RowMessage
                    {| WhatsAppMessage.id := None;
                       WhatsAppMessage.phone_number := phone;
                       WhatsAppMessage.message_content := content;
                       WhatsAppMessage.message_type := type;
                       WhatsAppMessage.status := lit "sent";
                       WhatsAppMessage.external_message_id := ext;
                       WhatsAppMessage.error_message := None |});;
               Session.commit) w1))
    end
  else (inr env, w1).
Proof.
  intros Hop. unfold try_except, bind. rewrite Hop.
  unfold Main.store_if_sent.
  destruct (success env); [|reflexivity].
  unfold bind, lift.
  destruct (Main.external_id env); reflexivity.
Qed.

End RecordingFacts.

(** X13.  The external message id of a success envelope is read without error
    exactly when the envelope has no data, or data that is an object without
    "messages", or with "messages" a non-empty list whose first element is an
    object; the id is then that object's "id", or null.  Any other data
    (null, a list, an empty "messages" list, a first element that is no
    object) makes the chain raise. *)
Theorem external_id_defined_iff_shape :
  forall env : Envelope,
    match reported_id env with
    | Some i => Main.external_id env = inr i
    | None => exists e, Main.external_id env = inl e
    end.
Proof.
  intros env.
  unfold reported_id, Main.external_id, Py.bind, Py.get, Py.getitem_int.
  destruct (data env) as [d|]; [|reflexivity].
  repeat
    match goal with
    | |- context [match ?x with _ => _ end] =>
        first [ is_var x
              | match x with dict_lookup _ _ => idtac end ];
        destruct x; simpl
    end;
    try reflexivity; eexists; reflexivity.
Qed.

(** X14.  When the gateway reports success but the id cannot be read from its
    data, a send handler answers HTTP 500 although the message has gone out:
    the call is in the log, and no record of it is stored. *)
Theorem sent_but_answered_500 :
  forall (cfg : Config) (rt : Runtime) (w : World) (env : Envelope) (e : exn),
    success env = true ->
    Main.external_id env = inl e ->
    let lost (handler : M Envelope) (payload : json) :=
      api rt (calls w) (WhatsAppService.gateway_request cfg payload)
      = inr env ->
      handler w =
      (inl (HTTPException 500 (str_exn rt e)),
       called w (WhatsAppService.gateway_request cfg payload)) in
    (forall request,
        lost (Main.send_whatsapp_template cfg rt request)
          (WhatsAppService.template_payload cfg
             (WhatsAppService._normalize_phone rt
                (Main.tpl_phone_number request))
             (Main.tpl_template_name request)
             (Main.tpl_parameters request))) /\
    (forall request,
        lost (Main.send_whatsapp_media cfg rt request)
          (WhatsAppService.media_payload cfg
             (WhatsAppService._normalize_phone rt
                (Main.med_phone_number request))
             (Main.med_media_url request) (Main.med_media_type request)
             (Main.med_caption request))) /\
    (forall request,
        Py.truthy (NGUMZO_API_KEY cfg) = true ->
        lost (Main.send_whatsapp_text cfg rt request)
          (WhatsAppService.text_payload cfg
             (WhatsAppService._normalize_phone rt
                (Main.txt_phone_number request))
             (Main.txt_message request))).
Proof.
  intros cfg rt w env e Hs He lost. unfold lost.
  split; [|split].
  - intros request Hapi. unfold Main.send_whatsapp_template.
    erewrite send_handler_run
      by (rewrite send_template_message_run; simpl; rewrite Hapi;
          reflexivity).
    now rewrite Hs, He.
  - intros request Hapi. unfold Main.send_whatsapp_media.
    erewrite send_handler_run
      by (rewrite send_media_message_run; simpl; rewrite Hapi; reflexivity).
    now rewrite Hs, He.
  - intros request Hk Hapi. unfold Main.send_whatsapp_text.
    erewrite send_handler_run
      by (rewrite send_message_run, Hk; simpl; rewrite Hapi; reflexivity).
    now rewrite Hs, He.
Qed.

Lemma sent_but_answered_500_witness :
  Main.send_whatsapp_template Demo.cfg
    (Demo.rt_with (inr Cases.accepted_without_id)) Cases.welcome_template
    Demo.start =
  (inl (HTTPException 500
          (str_exn (Demo.rt_with (inr Cases.accepted_without_id))
             IndexError)),
   called Demo.start
     (WhatsAppService.gateway_request Demo.cfg
        (WhatsAppService.template_payload Demo.cfg
           (WhatsAppService._normalize_phone
              (Demo.rt_with (inr Cases.accepted_without_id))
              (Main.tpl_phone_number Cases.welcome_template))
           (Main.tpl_template_name Cases.welcome_template)
           (Main.tpl_parameters Cases.welcome_template)))).
Proof.
  exact (proj1 (@sent_but_answered_500 Demo.cfg
                  (Demo.rt_with (inr Cases.accepted_without_id)) Demo.start
                  Cases.accepted_without_id IndexError eq_refl eq_refl)
           Cases.welcome_template eq_refl).
Defined.

(** X15.  The Gemini handler always makes exactly one call and never touches
    the store.  It has no [try]: an exception raised inside [call_api]
    reaches the caller as it is, and a failure envelope becomes an HTTP 500
    whose detail is the envelope's error, or "Unknown error" when it has
    none. *)
Theorem gemini_failures_surface :
  forall (cfg : Config) (rt : Runtime) (request : Main.GeminiRequest)
         (w : World),
    let req := gemini_request cfg request in
    let run := Main.get_gemini_response cfg rt request w in
    snd run = called w req /\
    (forall e, api rt (calls w) req = inl e -> fst run = inl e) /\
    (forall result,
        api rt (calls w) req = inr result ->
        success result = false ->
        fst run =
        inl (HTTPException 500
               (match error result with
                | Some text => text
                | None => lit "Unknown error"
                end))).
Proof.
  intros cfg rt request w req run.
  unfold run, Main.get_gemini_response, bind, call_api.
  change {| url := Main.GEMINI_API_URL ++ lit "?key="
                   ++ Py.format (GEMINI_API_KEY cfg);
            method := lit "POST";
            headers := WhatsAppService.json_headers;
            json_body := Some (Main.gemini_payload (Main.prompt request));
            timeout := None |} with req.
  cbv zeta.
  split; [|split].
  - destruct (api rt (calls w) req) as [e|result]; [reflexivity|].
    destruct (success result); simpl; [|reflexivity].
    destruct (data result); simpl; [|reflexivity].
    unfold lift, bind. destruct (Main.extract_text j); reflexivity.
  - intros e ->. reflexivity.
  - intros result -> Hs. now rewrite Hs.
Qed.

Lemma gemini_failures_surface_witness :
  fst (Main.get_gemini_response Demo.cfg (Demo.rt_with (inl Demo.timed_out))
         Demo.ask Demo.start) = inl Demo.timed_out /\
  fst (Main.get_gemini_response Demo.cfg (Demo.rt_with (inr Demo.refused))
         Demo.ask Demo.start) =
  inl (HTTPException 500 (lit "HTTP 500: upstream failure")).
Proof.
  split.
  - exact (proj1 (proj2 (gemini_failures_surface Demo.cfg
                           (Demo.rt_with (inl Demo.timed_out)) Demo.ask
                           Demo.start))
             Demo.timed_out eq_refl).
  - exact (proj2 (proj2 (gemini_failures_surface Demo.cfg
                           (Demo.rt_with (inr Demo.refused)) Demo.ask
                           Demo.start))
             Demo.refused eq_refl eq_refl).
Defined.



(** ** The gateway client and waiting-list creation under cancellation *)

Section CancellableFacts.
Variable cfg : Config.
Variable rt : Cancellable.Awaiting.

Lemma cancellable_send_message_run (p m t : pystr) (w : World) :
  Cancellable.send_message cfg rt p m t w =
  if Py.truthy (NGUMZO_API_KEY cfg) then
    let req :=
      WhatsAppService.gateway_request cfg
        (WhatsAppService.text_payload cfg
           (Cancellable._normalize_phone rt p) m) in
    (Cancellable.settled rt (Cancellable.awaited rt (calls w) req),
     called w req)
  else
    (inr (WhatsAppService.failure
            (lit "NGUMZO_API_KEY not found in environment variables")), w).
Proof.
  unfold Cancellable.send_message, Cancellable.send_message_try,
    Cancellable.try_except_Exception.
  destruct (Py.truthy (NGUMZO_API_KEY cfg)); simpl; [|reflexivity].
  unfold Cancellable.bind, Cancellable.call_api,
    WhatsAppService.gateway_request, called.
  destruct (Cancellable.awaited rt (calls w) _) as [[e|]|env]; reflexivity.
Qed.

Lemma cancellable_send_template_message_run
    (p t : pystr) (ps : option (list json)) (w : World) :
  Cancellable.send_template_message cfg rt p t ps w =
  let req :=
    WhatsAppService.gateway_request cfg
      (WhatsAppService.template_payload cfg
         (Cancellable._normalize_phone rt p) t ps) in
  (Cancellable.settled rt (Cancellable.awaited rt (calls w) req),
   called w req).
Proof.
  unfold Cancellable.send_template_message,
    Cancellable.send_template_message_try, Cancellable.try_except_Exception.
  unfold Cancellable.bind, Cancellable.call_api,
    WhatsAppService.gateway_request, called. simpl.
  destruct (Cancellable.awaited rt (calls w) _) as [[e|]|env]; reflexivity.
Qed.

Lemma cancellable_send_media_message_run
    (p u mt : pystr) (c : option pystr) (w : World) :
  Cancellable.send_media_message cfg rt p u mt c w =
  let req :=
    WhatsAppService.gateway_request cfg
      (WhatsAppService.media_payload cfg
         (Cancellable._normalize_phone rt p) u mt c) in
  (Cancellable.settled rt (Cancellable.awaited rt (calls w) req),
   called w req).
Proof.
  unfold Cancellable.send_media_message,
    Cancellable.send_media_message_try, Cancellable.try_except_Exception.
  unfold Cancellable.bind, Cancellable.call_api,
    WhatsAppService.gateway_request, called. simpl.
  destruct (Cancellable.awaited rt (calls w) _) as [[e|]|env]; reflexivity.
Qed.

(** The raising outcomes of a [try] block under [except Exception]. *)
Lemma except_Exception_outcomes (body : Cancellable.M Envelope) (w : World) :
  let op := Cancellable.try_except_Exception body
              (Cancellable.on_exception rt) in
  (forall e w', op w <> (inl (Cancellable.Exc e), w')) /\
  (forall e w',
      body w = (inl (Cancellable.Exc e), w') ->
      exists env,
        op w = (inr env, w') /\
        success env = false /\
        error env = Some (lit "Exception: " ++ Cancellable.str_of rt e)) /\
  (forall w',
      body w = (inl Cancellable.CancelledError, w') ->
      op w = (inl Cancellable.CancelledError, w')).
Proof.
  intros op. unfold op, Cancellable.try_except_Exception.
  destruct (body w) as [[[e|]|env] w1] eqn:E; repeat split;
    try discriminate; intros; try congruence.
  - injection H as <- <-. eexists. now repeat split.
Qed.

(** What [settled] never is. *)
Lemma settled_not_exception (r : Cancellable.raised + Envelope) (e : exn) :
  Cancellable.settled rt r <> inl (Cancellable.Exc e).
Proof. destruct r as [[e'|]|env]; discriminate. Qed.

End CancellableFacts.

(** With nothing ever cancelled the second embedding is the first. *)
Lemma never_cancelled_send_message
    (cfg : Config) (rt : Runtime) (p m t : pystr) (w : World) :
  Cancellable.send_message cfg (Cancellable.never_cancelled rt) p m t w =
  Cancellable.of_plain (WhatsAppService.send_message cfg rt p m t) w.
Proof.
  unfold Cancellable.of_plain.
  rewrite cancellable_send_message_run, send_message_run.
  destruct (Py.truthy (NGUMZO_API_KEY cfg)); [|reflexivity].
  cbv zeta. unfold Cancellable._normalize_phone,
    WhatsAppService._normalize_phone. simpl.
  destruct (api rt (calls w) _); reflexivity.
Qed.

Lemma never_cancelled_send_template_message
    (cfg : Config) (rt : Runtime) (p t : pystr) (ps : option (list json))
    (w : World) :
  Cancellable.send_template_message cfg (Cancellable.never_cancelled rt)
    p t ps w =
  Cancellable.of_plain (WhatsAppService.send_template_message cfg rt p t ps) w.
Proof.
  unfold Cancellable.of_plain.
  rewrite cancellable_send_template_message_run, send_template_message_run.
  cbv zeta. unfold Cancellable._normalize_phone,
    WhatsAppService._normalize_phone. simpl.
  destruct (api rt (calls w) _); reflexivity.
Qed.

Lemma never_cancelled_send_media_message
    (cfg : Config) (rt : Runtime) (p u mt : pystr) (c : option pystr)
    (w : World) :
  Cancellable.send_media_message cfg (Cancellable.never_cancelled rt)
    p u mt c w =
  Cancellable.of_plain (WhatsAppService.send_media_message cfg rt p u mt c) w.
Proof.
  unfold Cancellable.of_plain.
  rewrite cancellable_send_media_message_run, send_media_message_run.
  cbv zeta. unfold Cancellable._normalize_phone,
    WhatsAppService._normalize_phone. simpl.
  destruct (api rt (calls w) _); reflexivity.
Qed.

(** C3 (as amended).  None of the three gateway operations raises an instance
    of [Exception] to its caller: an instance of [Exception] raised in the
    [try] block, in the delegated call or before it, comes back as a failure
    envelope, [success] false, whose [error] is "Exception: " followed by the
    exception's text, for every input.  What an operation answers is what
    [call_api] answers, settled: an envelope is passed on, an [Exception]
    becomes the failure envelope, and a cancellation, which is no
    [Exception], leaves the operation as it came. *)
Theorem gateway_operations_catch_exception_instances :
  forall (cfg : Config) (rt : Cancellable.Awaiting) (w : World),
    let caught (body op : Cancellable.M Envelope) :=
      (forall e w', op w <> (inl (Cancellable.Exc e), w')) /\
      (forall e w',
          body w = (inl (Cancellable.Exc e), w') ->
          exists env,
            op w = (inr env, w') /\
            success env = false /\
            error env = Some (lit "Exception: " ++ Cancellable.str_of rt e)) /\
      (forall w',
          body w = (inl Cancellable.CancelledError, w') ->
          op w = (inl Cancellable.CancelledError, w')) in
    let answer (payload : json) :=
      Cancellable.settled rt
        (Cancellable.awaited rt (calls w)
           (WhatsAppService.gateway_request cfg payload)) in
    (forall p m t,
        caught (Cancellable.send_message_try cfg rt p m t)
               (Cancellable.send_message cfg rt p m t) /\
        fst (Cancellable.send_message cfg rt p m t w) =
        if Py.truthy (NGUMZO_API_KEY cfg) then
          answer (WhatsAppService.text_payload cfg
                    (Cancellable._normalize_phone rt p) m)
        else
          inr (WhatsAppService.failure
                 (lit "NGUMZO_API_KEY not found in environment variables"))) /\
    (forall p t ps,
        caught (Cancellable.send_template_message_try cfg rt p t ps)
               (Cancellable.send_template_message cfg rt p t ps) /\
        fst (Cancellable.send_template_message cfg rt p t ps w) =
        answer (WhatsAppService.template_payload cfg
                  (Cancellable._normalize_phone rt p) t ps)) /\
    (forall p u mt c,
        caught (Cancellable.send_media_message_try cfg rt p u mt c)
               (Cancellable.send_media_message cfg rt p u mt c) /\
        fst (Cancellable.send_media_message cfg rt p u mt c w) =
        answer (WhatsAppService.media_payload cfg
                  (Cancellable._normalize_phone rt p) u mt c)).
Proof.
  intros cfg rt w caught answer.
  split; [|split].
  - intros p m t. split.
    + apply except_Exception_outcomes.
    + rewrite cancellable_send_message_run.
      now destruct (Py.truthy (NGUMZO_API_KEY cfg)).
  - intros p t ps. split.
    + apply except_Exception_outcomes.
    + now rewrite cancellable_send_template_message_run.
  - intros p u mt c. split.
    + apply except_Exception_outcomes.
    + now rewrite cancellable_send_media_message_run.
Qed.

(** The [try] block of [send_template_message] raises what [call_api]
    raises. *)
Lemma cancellable_template_try_raises
    (cfg : Config) (rt : Cancellable.Awaiting) (p t : pystr)
    (ps : option (list json)) (w : World) (r : Cancellable.raised) :
  let req :=
    WhatsAppService.gateway_request cfg
      (WhatsAppService.template_payload cfg
         (Cancellable._normalize_phone rt p) t ps) in
  Cancellable.awaited rt (calls w) req = inl r ->
  Cancellable.send_template_message_try cfg rt p t ps w =
  (inl r, called w req).
Proof.
  intros req H.
  unfold req, WhatsAppService.gateway_request, called in *.
  unfold Cancellable.send_template_message_try, Cancellable.bind,
    Cancellable.call_api.
  cbv zeta. now rewrite H.
Qed.

Lemma gateway_operations_catch_exception_instances_witness :
  let w' :=
    called Demo.start
      (WhatsAppService.gateway_request Demo.cfg
         (WhatsAppService.template_payload Demo.cfg
            (Cancellable._normalize_phone Cancellable.timing_out
               (lit "0712345678"))
            (lit "welcome") None)) in
  exists env,
    Cancellable.send_template_message Demo.cfg Cancellable.timing_out
      (lit "0712345678") (lit "welcome") None Demo.start = (inr env, w') /\
    success env = false /\
    error env =
    Some (lit "Exception: "
          ++ Cancellable.str_of Cancellable.timing_out Demo.timed_out).
Proof.
  exact (proj1 (proj2
           (proj1 (proj1 (proj2 (gateway_operations_catch_exception_instances
                                   Demo.cfg Cancellable.timing_out
                                   Demo.start))
                     (lit "0712345678") (lit "welcome") None)))
           Demo.timed_out _
           (@cancellable_template_try_raises Demo.cfg Cancellable.timing_out
              (lit "0712345678") (lit "welcome") None Demo.start
              (Cancellable.Exc Demo.timed_out) eq_refl)).
Defined.

(** A cancelled await, run: [send_message] raises, and the request is in the
    log. *)
Example send_message_cancelled :
  Cancellable.send_message Demo.cfg Cancellable.cancelling
    (lit "0712345678") (lit "hello") (lit "text") Demo.start =
  (inl Cancellable.CancelledError,
   called Demo.start
     (WhatsAppService.gateway_request Demo.cfg
        (WhatsAppService.text_payload Demo.cfg (lit "+254712345678")
           (lit "hello")))).
Proof. vm_compute. reflexivity. Qed.

(** C3 (as stated) fails.  It is not so that each operation returns an
    envelope from every input: with the key set and the await of [call_api]
    cancelled, [send_message] on "0712345678" and "hello" raises
    [CancelledError], which [except Exception] does not catch. *)
Lemma gateway_operation_raises_when_cancelled :
  ~ (forall (cfg : Config) (rt : Cancellable.Awaiting) (p m t : pystr)
            (w : World),
        Cancellable.returns_envelope
          (Cancellable.send_message cfg rt p m t) w).
Proof.
  intros H.
  destruct (H Demo.cfg Cancellable.cancelling (lit "0712345678")
              (lit "hello") (lit "text") Demo.start) as [env [w' E]].
  vm_compute in E. discriminate E.
Qed.

Section CancellableCreation.
Variable cfg : Config.
Variable rt : Cancellable.Awaiting.

Lemma cancellable_create_duplicate
    (item : Main.WaitingListCreate) (w : World) (r : WaitingList.t) :
  find (fun r => PyStr.eqb (WaitingList.phone_number r)
                   (Main.wlc_phone_number item))
    (waiting_list (db w)) = Some r ->
  Cancellable.create_waiting_list_item cfg rt item w =
  (inl (Cancellable.Exc
          (HTTPException 422
             (Cancellable.str_of rt
                (HTTPException 400
                   (lit "Phone number already in waiting list"))))), w).
Proof.
  intros Hf.
  unfold Cancellable.create_waiting_list_item,
    Cancellable.try_except_Exception, Cancellable.bind, Cancellable.of_plain,
    Session.first_waiting_by_phone.
  now rewrite Hf.
Qed.

(** Creation for a phone number that is not listed: the outcome is decided by
    the welcome message's call alone. *)
Lemma cancellable_create_new
    (item : Main.WaitingListCreate) (w : World) :
  find (fun r => PyStr.eqb (WaitingList.phone_number r)
                   (Main.wlc_phone_number item))
    (waiting_list (db w)) = None ->
  if Py.truthy (NGUMZO_API_KEY cfg) then
    match Cancellable.awaited rt (calls w)
            (Cancellable.welcome_request cfg rt item) with
    | inl Cancellable.CancelledError =>
        fst (Cancellable.create_waiting_list_item cfg rt item w) =
        inl Cancellable.CancelledError
    | _ =>
        exists response,
          fst (Cancellable.create_waiting_list_item cfg rt item w) =
          inr response
    end
  else
    exists response,
      fst (Cancellable.create_waiting_list_item cfg rt item w) = inr response.
Proof.
  intros Hf.
  unfold Cancellable.create_waiting_list_item,
    Cancellable.try_except_Exception, Cancellable.bind, Cancellable.of_plain,
    Session.first_waiting_by_phone.
  rewrite Hf.
  unfold Session.add, Session.commit, Session.refresh_waiting, Session.on_db.
  cbn [fst snd db calls].
  rewrite cancellable_send_message_run.
  unfold Cancellable.welcome_request.
  destruct (Py.truthy (NGUMZO_API_KEY cfg)); cbn [calls].
  - destruct (Cancellable.awaited rt (calls w) _) as [[e|]|env]; simpl;
      try reflexivity; eexists; reflexivity.
  - eexists. reflexivity.
Qed.

End CancellableCreation.

(** X11.  Waiting-list creation raises an instance of [Exception] exactly
    when a row with the same phone number, compared as written, is already
    listed, and that error is always an HTTP 422: a missing key, a gateway
    failure or an [Exception] raised inside [call_api] never makes it fail.
    The one other way out is a cancellation at the await of the welcome
    message's call, which is no [Exception] and passes both [except] clauses;
    it needs the number to be new and the key to be set.  (The store's own
    operations are taken as not failing.) *)
Theorem create_waiting_list_item_errors :
  forall (cfg : Config) (rt : Cancellable.Awaiting)
         (item : Main.WaitingListCreate) (w : World),
    let outcome := fst (Cancellable.create_waiting_list_item cfg rt item w) in
    let listed :=
      exists r, In r (waiting_list (db w)) /\
                WaitingList.phone_number r = Main.wlc_phone_number item in
    ((exists e, outcome = inl (Cancellable.Exc e)) <-> listed) /\
    (forall e,
        outcome = inl (Cancellable.Exc e) ->
        exists detail, e = HTTPException 422 detail) /\
    (outcome = inl Cancellable.CancelledError <->
     ~ listed /\
     Py.truthy (NGUMZO_API_KEY cfg) = true /\
     Cancellable.awaited rt (calls w)
       (Cancellable.welcome_request cfg rt item)
     = inl Cancellable.CancelledError).
Proof.
  intros cfg rt item w outcome listed. unfold outcome, listed.
  destruct (find (fun r => PyStr.eqb (WaitingList.phone_number r)
                             (Main.wlc_phone_number item))
              (waiting_list (db w))) as [r|] eqn:Hf.
  - rewrite (cancellable_create_duplicate cfg rt item w Hf). simpl.
    apply find_some in Hf. destruct Hf as [Hin Heq].
    apply pystr_eqb_eq in Heq.
    assert (Hdup : exists r, In r (waiting_list (db w)) /\
                     WaitingList.phone_number r = Main.wlc_phone_number item)
      by now exists r.
    split; [|split].
    + split; [intros _; exact Hdup | intros _; now eexists].
    + intros e [= <-]. now eexists.
    + split; [discriminate | intros [Hn _]; now elim Hn].
  - assert (Hnew : ~ (exists r, In r (waiting_list (db w)) /\
                        WaitingList.phone_number r
                        = Main.wlc_phone_number item)).
    { intros [r [Hin Heq]]. apply pystr_eqb_eq in Heq.
      now rewrite (find_none _ _ Hf r Hin) in Heq. }
    pose proof (cancellable_create_new cfg rt item w Hf) as Hrun.
    destruct (Py.truthy (NGUMZO_API_KEY cfg)).
    + destruct (Cancellable.awaited rt (calls w)
                  (Cancellable.welcome_request cfg rt item))
        as [[e|]|env].
      * destruct Hrun as [response ->].
        split; [|split].
        -- split; [intros [e' He]; discriminate He | intros H; now elim Hnew].
        -- intros e' He. discriminate He.
        -- split; [discriminate | intros [_ [_ H]]; discriminate H].
      * rewrite Hrun.
        split; [|split].
        -- split; [intros [e' He]; discriminate He | intros H; now elim Hnew].
        -- intros e' He. discriminate He.
        -- split; [intros _; now repeat split | reflexivity].
      * destruct Hrun as [response ->].
        split; [|split].
        -- split; [intros [e' He]; discriminate He | intros H; now elim Hnew].
        -- intros e' He. discriminate He.
        -- split; [discriminate | intros [_ [_ H]]; discriminate H].
    + destruct Hrun as [response ->].
      split; [|split].
      * split; [intros [e' He]; discriminate He | intros H; now elim Hnew].
      * intros e' He. discriminate He.
      * split; [discriminate | intros [_ [H _]]; discriminate H].
Qed.

(** The three outcomes, run: a listed number, a newcomer whose welcome
    message times out, a newcomer whose welcome message is cancelled (the row
    is committed all the same). *)
Example create_waiting_list_item_outcomes :
  fst (Cancellable.create_waiting_list_item Demo.cfg Cancellable.timing_out
         Demo.again Demo.enrolled) =
  inl (Cancellable.Exc
         (HTTPException 422 (lit "Phone number already in waiting list"))) /\
  fst (Cancellable.create_waiting_list_item Demo.cfg Cancellable.timing_out
         Cases.newcomer Demo.enrolled) =
  inr (JDict [ (lit "message", JStr (lit "Added to waiting list"));
               (lit "id", JInt 2);
               (lit "whatsapp_sent", JBool false) ]) /\
  fst (Cancellable.create_waiting_list_item Demo.cfg Cancellable.cancelling
         Cases.newcomer Demo.enrolled) = inl Cancellable.CancelledError /\
  List.length
    (waiting_list
       (db (snd (Cancellable.create_waiting_list_item Demo.cfg
                   Cancellable.cancelling Cases.newcomer Demo.enrolled))))
  = 2.
Proof. vm_compute. repeat split. Qed.
